(** * WorkerConnect backend: card-scan / SAML session bridge

    A shallow embedding of the authentication core of the backend
    (routes/saml.js, middleware/samlAuth.js, utils/deviceDetection.js,
    utils/response.js and the session-token middleware of server.js),
    with the properties the specification states about it. *)

From stdpp Require Import base option list strings gmap.
From Stdlib Require Import Ascii NArith ZArith.

Local Open Scope string_scope.
Local Open Scope list_scope.
Local Open Scope N_scope.

(** ** JavaScript strings

    A JavaScript string is a sequence of UTF-16 code units. *)

Abbreviation jsstring := (list N).

(** A source-code literal (ASCII) as a JavaScript string. *)
Fixpoint lit (s : string) : jsstring :=
  match s with
  | EmptyString => []
  | String a s' => N_of_ascii a :: lit s'
  end.

(** [String.prototype.startsWith] *)
Fixpoint startsWith (s p : jsstring) : bool :=
  match p, s with
  | [], _ => true
  | _ :: _, [] => false
  | c :: p', d :: s' => (c =? d) && startsWith s' p'
  end.

(** [String.prototype.includes] *)
Fixpoint includes (s p : jsstring) : bool :=
  startsWith s p ||
  match s with
  | [] => false
  | _ :: s' => includes s' p
  end.

(** Case folding of a [/.../i] pattern without the unicode flag, for the
    ASCII patterns the source uses: only the ASCII letters fold. *)
Definition fold_case (c : N) : N :=
  if (97 <=? c) && (c <=? 122) then c - 32 else c.

Fixpoint startsWith_i (s p : jsstring) : bool :=
  match p, s with
  | [], _ => true
  | _ :: _, [] => false
  | c :: p', d :: s' => (fold_case c =? fold_case d) && startsWith_i s' p'
  end.

(** [/pattern/i.test(s)] for a pattern made of literal characters. *)
Fixpoint test_i (p s : jsstring) : bool :=
  startsWith_i s p ||
  match s with
  | [] => false
  | _ :: s' => test_i p s'
  end.

(** WhiteSpace and LineTerminator code points, the characters
    [String.prototype.trim] strips. *)
Definition isWhiteSpace (c : N) : bool :=
  (c =? 9) || (c =? 10) || (c =? 11) || (c =? 12) || (c =? 13) ||
  (c =? 32) || (c =? 160) || (c =? 5760) ||
  ((8192 <=? c) && (c <=? 8202)) ||
  (c =? 8232) || (c =? 8233) || (c =? 8239) || (c =? 8287) ||
  (c =? 12288) || (c =? 65279).

Fixpoint trimStart (s : jsstring) : jsstring :=
  match s with
  | [] => []
  | c :: s' => if isWhiteSpace c then trimStart s' else s
  end.

Definition trimEnd (s : jsstring) : jsstring := reverse (trimStart (reverse s)).

(** [String.prototype.trim] *)
Definition trim (s : jsstring) : jsstring := trimEnd (trimStart s).

(** *** encodeURIComponent *)

Definition hexDigit (n : N) : N :=
  if n <? 10 then 48 + n else 55 + n.

Definition percent (byte : N) : jsstring :=
  [37; hexDigit (byte / 16); hexDigit (byte mod 16)].

(** UTF-8 octets of a code point. *)
Definition utf8 (cp : N) : list N :=
  if cp <? 128 then [cp]
  else if cp <? 2048 then [192 + cp / 64; 128 + cp mod 64]
  else if cp <? 65536 then
    [224 + cp / 4096; 128 + (cp / 64) mod 64; 128 + cp mod 64]
  else
    [240 + cp / 262144; 128 + (cp / 4096) mod 64;
     128 + (cp / 64) mod 64; 128 + cp mod 64].

(** The characters encodeURIComponent leaves alone:
    letters, digits and  - _ . ! ~ * ' ( )  *)
Definition uriUnreserved (c : N) : bool :=
  ((65 <=? c) && (c <=? 90)) || ((97 <=? c) && (c <=? 122)) ||
  ((48 <=? c) && (c <=? 57)) ||
  (c =? 45) || (c =? 95) || (c =? 46) || (c =? 33) || (c =? 126) ||
  (c =? 42) || (c =? 39) || (c =? 40) || (c =? 41).

Definition isLeadSurrogate (c : N) : bool := (55296 <=? c) && (c <=? 56319).
Definition isTrailSurrogate (c : N) : bool := (56320 <=? c) && (c <=? 57343).

(** [None] is the URIError thrown on a lone surrogate. *)
Fixpoint encodeURIComponent (s : jsstring) : option jsstring :=
  match s with
  | [] => Some []
  | c :: rest =>
    if uriUnreserved c then (c ::.) <$> encodeURIComponent rest
    else if isLeadSurrogate c then
      match rest with
      | d :: rest' =>
        if isTrailSurrogate d then
          let cp := (c - 55296) * 1024 + (d - 56320) + 65536 in
          (app (concat (percent <$> utf8 cp))) <$> encodeURIComponent rest'
        else None
      | [] => None
      end
    else if isTrailSurrogate c then None
    else (app (concat (percent <$> utf8 c))) <$> encodeURIComponent rest
  end.

(** ** JavaScript values *)

Unset Elimination Schemes.
Inductive jsval :=
| JUndefined
| JNull
| JBool (b : bool)
| JNum (z : Z)
| JStr (s : jsstring)
| JArr (items : list jsval)
| JObj (fields : list (string * jsval)).
Set Elimination Schemes.

(** ToBoolean *)
Definition js_truthy (v : jsval) : bool :=
  match v with
  | JUndefined | JNull => false
  | JBool b => b
  | JNum z => negb (z =? 0)%Z
  | JStr s => match s with [] => false | _ => true end
  | JArr _ | JObj _ => true
  end.

(** [typeof v === 'string'] *)
Definition typeof_string (v : jsval) : bool :=
  match v with JStr _ => true | _ => false end.

(** Property read [o.k]; a missing property reads as undefined. *)
Fixpoint assoc (k : string) (fs : list (string * jsval)) : jsval :=
  match fs with
  | [] => JUndefined
  | (k', v) :: fs' => if String.eqb k k' then v else assoc k fs'
  end.

Definition field (k : string) (o : jsval) : jsval :=
  match o with
  | JObj fs => assoc k fs
  | _ => JUndefined
  end.

(** A property holding a string or nothing ([undefined]). *)
Definition truthy (v : option jsstring) : bool :=
  match v with
  | Some (_ :: _) => true
  | _ => false
  end.

(** [a || b] on such properties. *)
Definition js_or (a b : option jsstring) : option jsstring :=
  if truthy a then a else b.

(** [a || 'literal'] *)
Definition or_default (a : option jsstring) (d : jsstring) : jsstring :=
  match a with
  | Some (c :: s) => c :: s
  | _ => d
  end.

Definition of_opt (o : option jsstring) : jsval :=
  match o with
  | Some s => JStr s
  | None => JUndefined
  end.

(** [a === b] for two properties holding a string or nothing *)
Definition strict_eq (a b : option jsstring) : bool := bool_decide (a = b).

(** Interpolation [`${v}`] of such a property *)
Definition interpolate (v : option jsstring) : jsstring :=
  match v with
  | Some s => s
  | None => lit "undefined"
  end.

Example encode_signed_prefix :
  encodeURIComponent (lit "s:aB-_9.x+/y") = Some (lit "s%3AaB-_9.x%2B%2Fy").
Proof. reflexivity. Qed.

Example trim_example : trim ([32; 9] ++ lit "12 345" ++ [10; 160]) = lit "12 345".
Proof. reflexivity. Qed.

(** ** utils/response.js *)

Module ERROR_CODES.
Definition VALIDATION_ERROR := lit "VALIDATION_ERROR".
Definition AUTHENTICATION_ERROR := lit "AUTHENTICATION_ERROR".
Definition AUTHORIZATION_ERROR := lit "AUTHORIZATION_ERROR".
Definition NOT_FOUND := lit "NOT_FOUND".
Definition DUPLICATE_ENTRY := lit "DUPLICATE_ENTRY".
Definition DATABASE_ERROR := lit "DATABASE_ERROR".
Definition INTERNAL_ERROR := lit "INTERNAL_ERROR".
End ERROR_CODES.

(** A default parameter value [p = d] applies when the argument is
    undefined (or not passed). *)
Definition default_param (d v : jsval) : jsval :=
  match v with
  | JUndefined => d
  | _ => v
  end.

(** [correlationId || uuidv4()]; [uuid] is what the call to the random
    generator returns. *)
Definition correlation (uuid : jsstring) (correlationId : jsval) : jsval :=
  if js_truthy correlationId then correlationId else JStr uuid.

Definition successResponse (uuid : jsstring) (data correlationId : jsval) : jsval :=
  let correlationId := default_param JNull correlationId in
  JObj [("correlationId", correlation uuid correlationId);
        ("data", data);
        ("error", JNull)].

Definition errorResponse (uuid : jsstring)
    (code message target details correlationId : jsval) : jsval :=
  let target := default_param JNull target in
  let details := default_param (JArr []) details in
  let correlationId := default_param JNull correlationId in
  JObj [("correlationId", correlation uuid correlationId);
        ("data", JNull);
        ("error", JObj [("code", code);
                        ("message", message);
                        ("target", target);
                        ("details", details)])].

(** The three-argument call [errorResponse(code, 'message', 'target')]
    the handlers make. *)
Definition errorResponse3 (uuid : jsstring) (code : jsstring) (message target : string) : jsval :=
  errorResponse uuid (JStr code) (JStr (lit message)) (JStr (lit target))
    JUndefined JUndefined.

(** ** Requests, sessions and responses *)

(** The user object the SAML strategy's verify callback hands to Passport;
    it becomes [req.user]. [fullProfile] is the profile of the assertion,
    kept whole. *)
Record SamlUser := {
  nameID : option jsstring;
  employeeNumber : option jsstring;
  email : option jsstring;
  firstName : option jsstring;
  lastName : option jsstring;
  fullProfile : gmap string jsstring
}.

(** The object [acsHandler] stores as [req.session.user]. *)
Record SessionUser := {
  u_nameID : option jsstring;
  u_workerId : option jsstring;
  u_employeeNumber : option jsstring;
  u_email : option jsstring;
  u_firstName : option jsstring;
  u_lastName : option jsstring;
  u_name : jsstring;
  u_cardId : option jsstring;
  u_establishmentId : jsval;
  u_role : jsstring
}.

(** The properties of [req.session] the code reads or writes; an absent
    property is [None] (the sticky flag: [false]). *)
Record Session := {
  samlUser : option SamlUser;
  pendingCardId : option jsstring;
  passport : option SamlUser;
  user : option SessionUser;
  loginRole : option jsstring;
  mobileFlag : bool
}.

Record Request := {
  headers : gmap string jsstring;
  query : gmap string jsval;
  body : gmap string jsval;
  session : option Session;
  req_user : option SamlUser;
  sessionID : jsstring;
  deviceType : option jsstring
}.

Inductive Response :=
| Json (status : nat) (payload : jsval)
| Send (status : nat) (text : jsstring)
| Redirect (url : jsstring)
| Uncaught.

Definition set_session (r : Request) (s : option Session) : Request :=
  {| headers := headers r; query := query r; body := body r; session := s;
     req_user := req_user r; sessionID := sessionID r;
     deviceType := deviceType r |}.

Definition set_headers (r : Request) (h : gmap string jsstring) : Request :=
  {| headers := h; query := query r; body := body r; session := session r;
     req_user := req_user r; sessionID := sessionID r;
     deviceType := deviceType r |}.

Definition set_req_user (r : Request) (u : option SamlUser) : Request :=
  {| headers := headers r; query := query r; body := body r;
     session := session r; req_user := u; sessionID := sessionID r;
     deviceType := deviceType r |}.

Definition set_deviceType (r : Request) (d : jsstring) : Request :=
  {| headers := headers r; query := query r; body := body r;
     session := session r; req_user := req_user r; sessionID := sessionID r;
     deviceType := Some d |}.

Definition set_pendingCardId (s : Session) (c : option jsstring) : Session :=
  {| samlUser := samlUser s; pendingCardId := c; passport := passport s;
     user := user s; loginRole := loginRole s; mobileFlag := mobileFlag s |}.

Definition set_user (s : Session) (u : option SessionUser) : Session :=
  {| samlUser := samlUser s; pendingCardId := pendingCardId s;
     passport := passport s; user := u; loginRole := loginRole s;
     mobileFlag := mobileFlag s |}.

Definition set_passport (s : Session) (p : option SamlUser) : Session :=
  {| samlUser := samlUser s; pendingCardId := pendingCardId s;
     passport := p; user := user s; loginRole := loginRole s;
     mobileFlag := mobileFlag s |}.

Definition set_mobileFlag (s : Session) (b : bool) : Session :=
  {| samlUser := samlUser s; pendingCardId := pendingCardId s;
     passport := passport s; user := user s; loginRole := loginRole s;
     mobileFlag := b |}.

(** ** middleware/samlAuth.js *)

(** [clearSamlSession]: deletes samlUser, pendingCardId and passport from
    the session, when there is one. *)
Definition clearSamlSession (req : Request) : Request :=
  match session req with
  | Some s =>
    set_session req
      (Some {| samlUser := None; pendingCardId := None; passport := None;
               user := user s; loginRole := loginRole s;
               mobileFlag := mobileFlag s |})
  | None => req
  end.

(** [requireSamlAuth]: 401 unless both [req.user] and
    [req.session.samlUser] are there. Reading a property of a missing
    session throws. *)
Definition requireSamlAuth (uuid : jsstring) (req : Request)
    (next : Request -> Request * Response) : Request * Response :=
  match req_user req, session req with
  | None, _ =>
    (req, Json 401 (errorResponse3 uuid ERROR_CODES.AUTHENTICATION_ERROR
       "SAML authentication required. Please login via /saml/login"
       "authentication"))
  | Some _, None => (req, Uncaught)
  | Some _, Some s =>
    match samlUser s with
    | None =>
      (req, Json 401 (errorResponse3 uuid ERROR_CODES.AUTHENTICATION_ERROR
         "SAML authentication required. Please login via /saml/login"
         "authentication"))
    | Some _ => next req
    end
  end.

(** ** Passport (library): the effects the handlers rely on

    The handlers call [req.logout] with a callback and POST /logout
    answers from inside it, which is the interface of Passport 0.6 and
    later. From that version on, logging in and logging out both
    regenerate the session: express-session replaces [req.session] by a
    new, empty one, and nothing of the old session is carried over unless
    the caller passes [keepSessionInfo], which no route of this program
    does. *)

(** A session as express-session creates it: none of the properties the
    code uses is there. *)
Definition emptySession : Session :=
  {| samlUser := None; pendingCardId := None; passport := None;
     user := None; loginRole := None; mobileFlag := false |}.

(** [req.logout(cb)]: removes [req.user], then saves and regenerates the
    session. The request after it carries what the logout leaves once it
    has completed: a new session without any property of the old one. *)
Definition req_logout (req : Request) : Request :=
  set_req_user
    (match session req with
     | Some _ => set_session req (Some emptySession)
     | None => req
     end) None.

(** [req.isAuthenticated()] *)
Definition isAuthenticated (req : Request) : bool :=
  match req_user req with Some _ => true | None => false end.

(** ** utils/deviceDetection.js *)

Definition mobileOriginPatterns : list jsstring :=
  [lit "http://localhost"; lit "capacitor://localhost";
   lit "ionic://localhost"; lit "http://localhost:8080"; lit "file://"].

Definition mobileAppIdentifiers : list jsstring :=
  [lit "WorkerConnect"; lit "WorkerConnectApp"; lit "ReactNative";
   lit "Capacitor"; lit "Cordova"; lit "Ionic"].

Definition mobilePatterns : list jsstring :=
  [lit "Android"; lit "webOS"; lit "iPhone"; lit "iPad"; lit "iPod";
   lit "BlackBerry"; lit "Windows Phone"; lit "Mobile"].

(** [v === 'literal'] for a header *)
Definition header_is (v : option jsstring) (l : string) : bool :=
  bool_decide (v = Some (lit l)).

(** [v === 'literal'] for a query parameter *)
Definition param_is (v : option jsval) (l : string) : bool :=
  match v with
  | Some (JStr s) => bool_decide (s = lit l)
  | _ => false
  end.

Definition isMobileApp (req : Request) : bool :=
  (* 1. custom header *)
  if header_is (headers req !! "x-app-platform") "mobile"
     || header_is (headers req !! "x-client-type") "mobile-app"
  then true
  else
    (* 2. origin *)
    let origin := js_or (headers req !! "origin") (headers req !! "referer") in
    if match origin with
       | Some (c :: o) =>
         existsb (fun pattern => startsWith (c :: o) pattern) mobileOriginPatterns
       | _ => false
       end
    then true
    else
      (* 3. User-Agent *)
      let userAgent := or_default (headers req !! "user-agent") [] in
      if existsb (fun identifier => includes userAgent identifier)
           mobileAppIdentifiers
      then true
      else
        (* 4. query parameter override *)
        if param_is (query req !! "platform") "mobile"
           || param_is (query req !! "app") "true"
        then true
        else
          (* 5. session flag *)
          match session req with
          | Some s => mobileFlag s
          | None => false
          end.

Definition isMobileBrowser (req : Request) : bool :=
  let userAgent := or_default (headers req !! "user-agent") [] in
  let isMobile := existsb (fun pattern => test_i pattern userAgent) mobilePatterns in
  isMobile && negb (isMobileApp req).

Definition isDesktopBrowser (req : Request) : bool :=
  negb (isMobileApp req) && negb (isMobileBrowser req).

Record Env := {
  MOBILE_APP_URL : option jsstring;
  CLIENT_URL : option jsstring;
  SESSION_SECRET : option jsstring
}.

Definition getRedirectUrl (env : Env) (req : Request) (path : jsstring) : jsstring :=
  let isMobile := isMobileApp req in
  let cleanPath := if startsWith path (lit "/") then path else lit "/" ++ path in
  if isMobile then
    let mobileUrl := or_default (MOBILE_APP_URL env) (lit "http://localhost") in
    mobileUrl ++ cleanPath
  else
    let webUrl := or_default (CLIENT_URL env) (lit "http://localhost:5173") in
    webUrl ++ cleanPath.

Definition detectDeviceMiddleware (req : Request) : Request :=
  if isMobileApp req then
    let req := set_deviceType req (lit "mobile-app") in
    match session req with
    | Some s => set_session req (Some (set_mobileFlag s true))
    | None => req
    end
  else if isMobileBrowser req then set_deviceType req (lit "mobile-browser")
  else set_deviceType req (lit "desktop-browser").

(** ** server.js: the session-token middleware *)

(** If the Cookie header is missing (or empty) and an X-Session-Token
    header is there, the token is written back as the cookie
    [saml.sid=<token>]. *)
Definition sessionTokenMiddleware (req : Request) : Request :=
  if negb (truthy (headers req !! "cookie"))
     && truthy (headers req !! "x-session-token")
  then
    match headers req !! "x-session-token" with
    | Some token =>
      set_headers req (<["cookie" := lit "saml.sid=" ++ token]> (headers req))
    | None => req
    end
  else req.

(** The middleware chain of server.js, in the order of its [app.use]
    (and [app.options]) calls. *)
Inductive Middleware :=
| Cors | JsonBody | UrlencodedBody | StaticFiles | SessionToken | Preflight
| ExpressSession | SessionLog | PassportInitialize | PassportSession
| RequestLog.

Definition middlewareChain : list Middleware :=
  [Cors; JsonBody; UrlencodedBody; StaticFiles; SessionToken; Preflight;
   ExpressSession; SessionLog; PassportInitialize; PassportSession;
   RequestLog].

(** ** routes/saml.js *)

Definition update_session (f : Session -> Session) (req : Request) : Request :=
  match session req with
  | Some s => set_session req (Some (f s))
  | None => req
  end.

Definition claim_nameidentifier : string :=
  "http://schemas.xmlsoap.org/ws/2005/05/identity/claims/nameidentifier".
Definition claim_emailaddress : string :=
  "http://schemas.xmlsoap.org/ws/2005/05/identity/claims/emailaddress".

(** The verify callback of the SAML strategy: the attributes taken from
    the profile of a validated assertion. *)
Definition userAttributes (profile : gmap string jsstring) : SamlUser :=
  {| nameID := js_or (profile !! "nameID") (profile !! claim_nameidentifier);
     employeeNumber :=
       js_or (js_or (profile !! "employeeNumber") (profile !! "employeeNumber"))
             (profile !! claim_nameidentifier);
     email := js_or (profile !! "email") (profile !! claim_emailaddress);
     firstName := js_or (profile !! "firstName") (profile !! "givenName");
     lastName := js_or (profile !! "lastName") (profile !! "surname");
     fullProfile := profile |}.

(** Passport's login after a validated assertion
    ([passport.authenticate('saml', ...)] on the callback routes): the
    session is regenerated, the user is kept in the new session and
    becomes [req.user]. What the old session held (a pending card, the
    intended role, an earlier identity, the sticky flag) is not in the
    new one. The identifier the new session gets is not modelled: no
    handler compares identifiers of different requests. *)
Definition req_login (u : SamlUser) (req : Request) : Request :=
  set_req_user
    (update_session (fun _ => set_passport emptySession (Some u)) req) (Some u).

(** What one run of a handler gets from outside: the environment
    variables, the identifier [uuidv4()] returns, and whether
    [req.session.save] reports an error. *)
Record World := {
  env : Env;
  uuid : jsstring;
  saveFails : bool
}.

(** The routes /login, /login/worker and /login/establishment record the
    intended role before the redirect to the identity provider. *)
Definition loginIntent (role : string) (req : Request) : Request :=
  update_session
    (fun s => {| samlUser := samlUser s; pendingCardId := pendingCardId s;
                 passport := passport s; user := user s;
                 loginRole := Some (lit role); mobileFlag := mobileFlag s |})
    req.

Definition jsonRequest (req : Request) : bool :=
  match headers req !! "content-type" with
  | Some ct => includes ct (lit "application/json")
  | None => false
  end.

Definition dashboardPath (targetRole : jsstring) : jsstring :=
  if bool_decide (targetRole = lit "establishment") then lit "/dashboard/establishment"
  else if bool_decide (targetRole = lit "department") then lit "/dashboard/department"
  else lit "/dashboard/worker".

Definition sessionUser (samlUser : SamlUser) (s : Session) : SessionUser :=
  {| u_nameID := nameID samlUser;
     u_workerId := employeeNumber samlUser;
     u_employeeNumber := employeeNumber samlUser;
     u_email := email samlUser;
     u_firstName := firstName samlUser;
     u_lastName := lastName samlUser;
     u_name := trim (interpolate (firstName samlUser) ++ lit " "
                     ++ or_default (lastName samlUser) []);
     u_cardId := employeeNumber samlUser;
     u_establishmentId := JNull;
     u_role := or_default (loginRole s) (lit "worker") |}.

Definition json_of_SamlUser (u : SamlUser) : jsval :=
  JObj [("nameID", of_opt (nameID u));
        ("employeeNumber", of_opt (employeeNumber u));
        ("email", of_opt (email u));
        ("firstName", of_opt (firstName u));
        ("lastName", of_opt (lastName u));
        ("fullProfile",
         JObj ((fun kv => (kv.1, JStr kv.2)) <$> map_to_list (fullProfile u)))].

Definition json_of_SessionUser (u : SessionUser) : jsval :=
  JObj [("nameID", of_opt (u_nameID u));
        ("workerId", of_opt (u_workerId u));
        ("employeeNumber", of_opt (u_employeeNumber u));
        ("email", of_opt (u_email u));
        ("firstName", of_opt (u_firstName u));
        ("lastName", of_opt (u_lastName u));
        ("name", JStr (u_name u));
        ("cardId", of_opt (u_cardId u));
        ("establishmentId", u_establishmentId u);
        ("role", JStr (u_role u))].

Section Routes.

(** cookie-signature (library): HMAC-SHA256 of a value under a secret,
    in base64 without padding. *)
Variable hmac : jsstring -> jsstring -> jsstring.

(** [signature.sign(val, secret)] is [val + '.' + mac]; without a secret
    it throws a TypeError ([None]). *)
Definition sign (val : jsstring) (secret : option jsstring) : option jsstring :=
  match secret with
  | Some k => Some (val ++ lit "." ++ hmac k val)
  | None => None
  end.

(** The try block of [acsHandler] that appends the session token; when
    signing or encoding throws, the catch logs and the URL stays as it
    was. *)
Definition appendSessionToken (e : Env) (sid redirectUrl : jsstring) : jsstring :=
  match sign sid (SESSION_SECRET e) with
  | Some signed =>
    let signedSessionId := lit "s:" ++ signed in
    let separator := if includes redirectUrl (lit "?") then lit "&" else lit "?" in
    match encodeURIComponent signedSessionId with
    | Some token => redirectUrl ++ separator ++ lit "session_token=" ++ token
    | None => redirectUrl
    end
  | None => redirectUrl
  end.

(** The catch block of [acsHandler]. *)
Definition acsFailed (w : World) (req : Request) : Request * Response :=
  (clearSamlSession req,
   Json 500 (errorResponse3 (uuid w) ERROR_CODES.INTERNAL_ERROR
               "SAML authentication failed" "saml")).

Definition acsHandler (w : World) (req : Request) : Request * Response :=
  match session req, req_user req with
  | Some s, Some samlUser =>
    let pendingCardId' := pendingCardId s in
    let userIdentifier := js_or (employeeNumber samlUser) (nameID samlUser) in
    if truthy pendingCardId' && negb (strict_eq userIdentifier pendingCardId')
    then
      (* card mismatch: clear session and deny access *)
      (req_logout (clearSamlSession req),
       Json 403 (errorResponse3 (uuid w) ERROR_CODES.AUTHORIZATION_ERROR
                   "Card ID does not match authenticated user. Access denied."
                   "cardValidation"))
    else
      let s := if truthy pendingCardId' then set_pendingCardId s None else s in
      let user' := sessionUser samlUser s in
      let s := set_user s (Some user') in
      let req := set_session req (Some s) in
      if saveFails w then (req, Send 500 (lit "Session save error"))
      else
        let targetRole := u_role user' in
        let redirectUrl := getRedirectUrl (env w) req (dashboardPath targetRole) in
        (req, Redirect (appendSessionToken (env w) (sessionID req) redirectUrl))
  | _, _ => acsFailed w req
  end.

(** POST /saml/logout *)
Definition logoutRoute (w : World) (req : Request) : Request * Response :=
  requireSamlAuth (uuid w) req (fun req =>
    let req := req_logout (clearSamlSession req) in
    (* req.session.destroy *)
    let req := set_session req None in
    if jsonRequest req then
      (req, Json 200 (successResponse (uuid w)
               (JObj [("message", JStr (lit "Logout successful"));
                      ("redirectTo", JStr (lit "/login"))])
               JUndefined))
    else (req, Redirect (lit "/login"))).

Definition invalidCardId (cardId : jsval) : bool :=
  negb (js_truthy cardId) || negb (typeof_string cardId) ||
  match cardId with
  | JStr s => N.of_nat (length (trim s)) =? 0
  | _ => false
  end.

(** POST /card-scan *)
Definition cardScan (w : World) (req : Request) : Request * Response :=
  let cardId := default JUndefined (body req !! "cardId") in
  if invalidCardId cardId then
    (req, Json 400 (errorResponse3 (uuid w) ERROR_CODES.VALIDATION_ERROR
                      "cardId is required and must be a non-empty string"
                      "cardId"))
  else
    let trimmedCardId := match cardId with JStr s => trim s | _ => [] end in
    match session req with
    | None =>
      (* reading req.session.samlUser throws: the catch block *)
      (clearSamlSession req,
       Json 500 (errorResponse3 (uuid w) ERROR_CODES.INTERNAL_ERROR
                   "Failed to process card scan" "cardScan"))
    | Some s =>
      let isLoggedIn :=
        bool_decide (is_Some (samlUser s)) && bool_decide (is_Some (req_user req)) in
      let req := if isLoggedIn then req_logout (clearSamlSession req) else req in
      let req := update_session (fun s => set_pendingCardId s (Some trimmedCardId)) req in
      if saveFails w then
        (req, Json 500 (errorResponse3 (uuid w) ERROR_CODES.INTERNAL_ERROR
                          "Failed to save session" "session"))
      else if jsonRequest req then
        (req, Json 200 (successResponse (uuid w)
                 (JObj [("message", JStr (lit "Card scan received. Redirecting to SAML login."));
                        ("cardId", JStr trimmedCardId);
                        ("redirectTo", JStr (lit "/saml/login"))])
                 JUndefined))
      else (req, Redirect (lit "/saml/login"))
    end.

(** GET /saml/status *)
Definition statusRoute (req : Request) : Response :=
  match session req with
  | Some s =>
    if isAuthenticated req || bool_decide (is_Some (user s)) then
      let user' :=
        match user s with
        | Some u => json_of_SessionUser u
        | None => from_option json_of_SamlUser JUndefined (req_user req)
        end in
      Json 200 (JObj [("isAuthenticated", JBool true); ("user", user')])
    else Json 200 (JObj [("isAuthenticated", JBool false)])
  | None =>
    if isAuthenticated req then Uncaught
    else Json 200 (JObj [("isAuthenticated", JBool false)])
  end.

(** The next request of the same client, once the session of the
    previous request has been written to the store (by the handler's
    [req.session.save] or by express-session at the end of the response):
    express-session hands out the stored session (a new one when there is
    none) and passport.session() restores [req.user] from the login kept
    in it. *)
Definition nextRequest (prev : Request) (h : gmap string jsstring)
    (q b : gmap string jsval) : Request :=
  let s := default emptySession (session prev) in
  {| headers := h; query := q; body := b; session := Some s;
     req_user := passport s; sessionID := sessionID prev;
     deviceType := None |}.

End Routes.

(** * Properties *)

(** ** String helpers *)

Lemma trimStart_head (s : jsstring) (c : N) :
  head (trimStart s) = Some c -> isWhiteSpace c = false.
Proof.
  induction s as [|d s IH]; simpl; [discriminate|].
  destruct (isWhiteSpace d) eqn:Hd; [exact IH|].
  simpl. intros [= <-]. exact Hd.
Qed.

Lemma trimStart_snoc (l : jsstring) (a : N) :
  isWhiteSpace a = false -> exists l', trimStart (l ++ [a]) = l' ++ [a].
Proof.
  intros Ha. induction l as [|d l IH]; simpl.
  - rewrite Ha. by exists [].
  - destruct (isWhiteSpace d); [exact IH|]. by exists (d :: l).
Qed.

Lemma trim_head (s : jsstring) (c : N) :
  head (trim s) = Some c -> isWhiteSpace c = false.
Proof.
  unfold trim, trimEnd.
  destruct (trimStart s) as [|a t] eqn:Ht; simpl; [discriminate|].
  assert (Ha : isWhiteSpace a = false) by (apply (trimStart_head s); by rewrite Ht).
  destruct (trimStart_snoc (reverse t) a Ha) as [l' Hl'].
  rewrite reverse_cons, Hl', reverse_snoc. simpl. by intros [= <-].
Qed.

Lemma trim_last (s : jsstring) (c : N) :
  last (trim s) = Some c -> isWhiteSpace c = false.
Proof.
  unfold trim, trimEnd. rewrite last_reverse. apply trimStart_head.
Qed.

(** ** Device classification *)

(** C8. A request whose X-App-Platform header is 'mobile' is classified as
    a mobile app, whatever its Origin, Referer, User-Agent, query
    parameters and session flag are: [isMobileApp] answers true at its
    first check and [detectDeviceMiddleware] sets the device type
    'mobile-app'. *)
Theorem platform_header_wins (req : Request) :
  headers req !! "x-app-platform" = Some (lit "mobile") ->
  isMobileApp req = true /\
  deviceType (detectDeviceMiddleware req) = Some (lit "mobile-app").
Proof.
  intros Hh.
  assert (Hm : isMobileApp req = true).
  { unfold isMobileApp, header_is. rewrite Hh.
    by rewrite (bool_decide_eq_true_2 _ eq_refl). }
  split; [exact Hm|].
  unfold detectDeviceMiddleware. rewrite Hm. simpl.
  by destruct (session req).
Qed.

(** A desktop-looking request (browser origin and User-Agent, no query
    override, no session) that carries the platform header. *)
Definition desktopLookingAppRequest : Request :=
  {| headers :=
       <["x-app-platform" := lit "mobile"]>
       (<["origin" := lit "https://portal.example.com"]>
       (<["user-agent" := lit "Mozilla/5.0 (Windows NT 10.0; Win64; x64)"]> ∅));
     query := ∅; body := ∅; session := None; req_user := None;
     sessionID := lit "sid"; deviceType := None |}.

Lemma platform_header_wins_witness :
  headers desktopLookingAppRequest !! "x-app-platform" = Some (lit "mobile") /\
  isMobileApp desktopLookingAppRequest = true /\
  deviceType (detectDeviceMiddleware desktopLookingAppRequest)
    = Some (lit "mobile-app").
Proof.
  split; [reflexivity|].
  apply (platform_header_wins desktopLookingAppRequest). reflexivity.
Defined.

(** Without the header the same request is a desktop browser. *)
Example desktop_without_header :
  deviceType (detectDeviceMiddleware
    (set_headers desktopLookingAppRequest
       (delete "x-app-platform" (headers desktopLookingAppRequest))))
  = Some (lit "desktop-browser").
Proof. vm_compute. reflexivity. Qed.

(** ** Response envelopes *)

(** Exactly one of the data and error fields of an envelope is non-null. *)
Definition exactlyOneNonNull (envelope : jsval) : Prop :=
  (field "data" envelope <> JNull /\ field "error" envelope = JNull) \/
  (field "data" envelope = JNull /\ field "error" envelope <> JNull).

(** [successResponse(null)] has data and error both null. *)
Lemma success_null_has_no_field :
  ~ exactlyOneNonNull (successResponse (lit "c0ffee") JNull JUndefined).
Proof.
  unfold exactlyOneNonNull. simpl. intros [[H _]|[_ H]]; by apply H.
Qed.

(** C9, amended. [successResponse] returns error = null and data = its
    argument; [errorResponse] returns data = null and an error object with
    code, message, target and details. So an error envelope has exactly
    one non-null field, and a success envelope has exactly one precisely
    when its data argument is not null. *)
Theorem envelope_fields (uuid : jsstring)
    (data code message target details correlationId : jsval) :
  let ok := successResponse uuid data correlationId in
  let ko := errorResponse uuid code message target details correlationId in
  field "error" ok = JNull /\
  field "data" ok = data /\
  field "data" ko = JNull /\
  field "error" ko =
    JObj [("code", code); ("message", message);
          ("target", default_param JNull target);
          ("details", default_param (JArr []) details)] /\
  exactlyOneNonNull ko /\
  (exactlyOneNonNull ok <-> data <> JNull).
Proof.
  simpl. repeat split; try done.
  - right. by split.
  - intros [[H _]|[_ H]]; done.
  - intros H. left. by split.
Qed.

(** ** Session fallback bridge *)

(** The bridge as the specification words it: with no Cookie header, a
    fallback token arriving as the X-Session-Token header or as the
    session_token query parameter becomes the cookie saml.sid=<token>. *)
Definition bridgesFallbackToken (req : Request) : Prop :=
  forall token : jsstring,
    token <> [] ->
    headers req !! "cookie" = None ->
    headers req !! "x-session-token" = Some token \/
    query req !! "session_token" = Some (JStr token) ->
    headers (sessionTokenMiddleware req) !! "cookie"
      = Some (lit "saml.sid=" ++ token).

(** A request that carries its token only in the query string. *)
Definition queryTokenRequest : Request :=
  {| headers := ∅;
     query := <["session_token" := JStr (lit "s:abc.mac")]> ∅;
     body := ∅; session := None; req_user := None;
     sessionID := lit "sid"; deviceType := None |}.

(** The middleware does not read the query string: such a request leaves
    it without a cookie. *)
Lemma query_token_is_not_bridged : ~ bridgesFallbackToken queryTokenRequest.
Proof.
  intros H.
  specialize (H (lit "s:abc.mac")).
  assert (Hc : headers (sessionTokenMiddleware queryTokenRequest) !! "cookie" = None)
    by reflexivity.
  rewrite Hc in H. discriminate H; [done|reflexivity|right; reflexivity].
Qed.

(** C5, amended. With no (or an empty) Cookie header and a non-empty
    X-Session-Token header, the middleware sets the Cookie header to
    saml.sid=<token>; with a non-empty Cookie header it changes nothing
    (cookie wins); and without the X-Session-Token header it changes
    nothing either, whatever the query string holds. The middleware runs
    before the session middleware that looks the session up. *)
Theorem header_token_bridge (req : Request) :
  (exists before after,
     middlewareChain = before ++ SessionToken :: after /\
     ExpressSession ∈ after) /\
  (forall token : jsstring,
     truthy (headers req !! "cookie") = false ->
     headers req !! "x-session-token" = Some token ->
     token <> [] ->
     headers (sessionTokenMiddleware req) !! "cookie"
       = Some (lit "saml.sid=" ++ token)) /\
  (truthy (headers req !! "cookie") = true ->
   sessionTokenMiddleware req = req) /\
  (headers req !! "x-session-token" = None ->
   sessionTokenMiddleware req = req).
Proof.
  split.
  { exists [Cors; JsonBody; UrlencodedBody; StaticFiles].
    eexists. split; [reflexivity|]. by repeat constructor. }
  unfold sessionTokenMiddleware. repeat split.
  - intros token Hc Ht Hne. rewrite Hc, Ht.
    destruct token; [done|]. simpl. by rewrite lookup_insert_eq.
  - intros Hc. by rewrite Hc.
  - intros Ht. rewrite Ht. simpl. by rewrite andb_false_r.
Qed.

Definition headerTokenRequest : Request :=
  {| headers := <["x-session-token" := lit "s:abc.mac"]> ∅;
     query := ∅; body := ∅; session := None; req_user := None;
     sessionID := lit "sid"; deviceType := None |}.

Definition cookieAndTokenRequest : Request :=
  set_headers headerTokenRequest
    (<["cookie" := lit "saml.sid=s:own.mac"]> (headers headerTokenRequest)).

Lemma header_token_bridge_witness :
  headers (sessionTokenMiddleware headerTokenRequest) !! "cookie"
    = Some (lit "saml.sid=s:abc.mac") /\
  sessionTokenMiddleware cookieAndTokenRequest = cookieAndTokenRequest /\
  sessionTokenMiddleware queryTokenRequest = queryTokenRequest.
Proof.
  split; [|split].
  - apply (proj1 (proj2 (header_token_bridge headerTokenRequest)) (lit "s:abc.mac"));
      [reflexivity|reflexivity|discriminate].
  - apply (proj1 (proj2 (proj2 (header_token_bridge cookieAndTokenRequest)))).
    reflexivity.
  - apply (proj2 (proj2 (proj2 (header_token_bridge queryTokenRequest)))).
    reflexivity.
Defined.

(** ** The assertion consumer, case by case *)

Section RouteFacts.

Variable hmac : jsstring -> jsstring -> jsstring.

(** The state [acsHandler] leaves behind when it accepts an assertion. *)
Definition establishedSession (s : Session) (u : SamlUser) : Session :=
  let s := if truthy (pendingCardId s) then set_pendingCardId s None else s in
  set_user s (Some (sessionUser u s)).

Definition cardMismatch (s : Session) (u : SamlUser) : bool :=
  truthy (pendingCardId s)
  && negb (strict_eq (js_or (employeeNumber u) (nameID u)) (pendingCardId s)).


Lemma cardMismatch_false_match (s : Session) (u : SamlUser) :
  js_or (employeeNumber u) (nameID u) = pendingCardId s ->
  cardMismatch s u = false.
Proof.
  intros Hid. unfold cardMismatch, strict_eq.
  rewrite bool_decide_eq_true_2 by done. apply andb_false_r.
Qed.

Lemma cardMismatch_false_direct (s : Session) (u : SamlUser) :
  truthy (pendingCardId s) = false -> cardMismatch s u = false.
Proof. intros H. unfold cardMismatch. by rewrite H. Qed.

Lemma acs_denies (w : World) (req : Request) (s : Session) (u : SamlUser) :
  session req = Some s -> req_user req = Some u ->
  cardMismatch s u = true ->
  acsHandler hmac w req =
    (req_logout (clearSamlSession req),
     Json 403 (errorResponse3 (uuid w) ERROR_CODES.AUTHORIZATION_ERROR
                 "Card ID does not match authenticated user. Access denied."
                 "cardValidation")).
Proof.
  intros Hs Hu Hm. unfold acsHandler. rewrite Hs, Hu.
  unfold cardMismatch in Hm. by rewrite Hm.
Qed.

Lemma acs_accepts (w : World) (req : Request) (s : Session) (u : SamlUser) :
  session req = Some s -> req_user req = Some u ->
  cardMismatch s u = false ->
  acsHandler hmac w req =
    let s' := establishedSession s u in
    let req' := set_session req (Some s') in
    (req',
     if saveFails w then Send 500 (lit "Session save error")
     else Redirect
            (appendSessionToken hmac (env w) (sessionID req)
               (getRedirectUrl (env w) req'
                  (dashboardPath (or_default (loginRole s) (lit "worker")))))).
Proof.
  intros Hs Hu Hm. unfold acsHandler. rewrite Hs, Hu.
  unfold cardMismatch in Hm. rewrite Hm.
  unfold establishedSession.
  destruct (truthy (pendingCardId s)); simpl; by destruct (saveFails w).
Qed.

(** A valid cardId passes the validation of /card-scan. *)
Lemma validCardId (c : jsstring) : trim c <> [] -> invalidCardId (JStr c) = false.
Proof.
  intros Ht. unfold invalidCardId.
  destruct c as [|a c]; [done|]. simpl.
  destruct (trim (a :: c)); done.
Qed.

(** Whatever else it does, /card-scan leaves a valid scan pending. *)
Lemma cardScan_session (w : World) (req : Request) (s : Session) (c : jsstring) :
  session req = Some s -> body req !! "cardId" = Some (JStr c) ->
  trim c <> [] ->
  session (cardScan w req).1 =
    Some (set_pendingCardId
            (if bool_decide (is_Some (samlUser s)) && bool_decide (is_Some (req_user req))
             then emptySession
             else s)
            (Some (trim c))).
Proof.
  intros Hs Hb Ht. unfold cardScan. rewrite Hb. simpl.
  rewrite (validCardId c Ht), Hs.
  destruct (bool_decide (is_Some (samlUser s)) && bool_decide (is_Some (req_user req))).
  - unfold clearSamlSession, req_logout, update_session. rewrite Hs. simpl.
    destruct (saveFails w); [done|]. by destruct (jsonRequest _).
  - unfold update_session. rewrite Hs.
    destruct (saveFails w); [done|]. by destruct (jsonRequest _).
Qed.

End RouteFacts.

(** ** Card scan *)


(** A scan of the card " 12345 " on a fresh session, sent as JSON. *)
Definition scanRequest : Request :=
  {| headers := <["content-type" := lit "application/json"]> ∅;
     query := ∅;
     body := <["cardId" := JStr (lit " 12345 ")]> ∅;
     session := Some emptySession; req_user := None;
     sessionID := lit "sid"; deviceType := None |}.


Definition quietWorld : World :=
  {| env := {| MOBILE_APP_URL := None; CLIENT_URL := None;
               SESSION_SECRET := Some (lit "secret") |};
     uuid := lit "c0ffee";
     saveFails := false |}.

(** ** What the handlers do to the session *)

(** Unfolds the session helpers at a request whose session is known. *)
Ltac session_step Hs :=
  simpl; unfold clearSamlSession, req_logout, update_session;
  repeat (rewrite ?Hs; simpl).

Section SessionFacts.

Variable hmac : jsstring -> jsstring -> jsstring.

(** The identity [acsHandler] stores has the assertion's employeeNumber
    as its cardId, whether or not that was the identifier compared with
    the scanned card. *)
Lemma acs_cardId (w : World) (req : Request) (s : Session) (u : SamlUser) :
  session req = Some s -> req_user req = Some u ->
  cardMismatch s u = false ->
  u_cardId <$> (session (acsHandler hmac w req).1 ≫= user)
    = Some (employeeNumber u).
Proof.
  intros Hs Hu Hm. by rewrite (acs_accepts hmac w req s u Hs Hu Hm).
Qed.

(** With an employeeNumber that equals the scanned card, the identity
    carries the scanned card. *)
Lemma acs_cardId_employeeNumber (w : World) (req : Request) (s : Session)
    (u : SamlUser) (p : jsstring) :
  session req = Some s -> req_user req = Some u ->
  pendingCardId s = Some p -> p <> [] ->
  employeeNumber u = Some p ->
  u_cardId <$> (session (acsHandler hmac w req).1 ≫= user) = Some (Some p).
Proof.
  intros Hs Hu Hp Hne He.
  rewrite (acs_cardId w req s u Hs Hu), He; [done|].
  apply cardMismatch_false_match. rewrite Hp. unfold js_or. rewrite He.
  by destruct p.
Qed.

(** With no employeeNumber and a nameID that equals the scanned card,
    the assertion is accepted and the identity's cardId is not the
    scanned card. *)
Lemma acs_cardId_nameID (w : World) (req : Request) (s : Session)
    (u : SamlUser) (p : jsstring) :
  session req = Some s -> req_user req = Some u ->
  pendingCardId s = Some p -> p <> [] ->
  truthy (employeeNumber u) = false -> nameID u = Some p ->
  exists c, u_cardId <$> (session (acsHandler hmac w req).1 ≫= user) = Some c
            /\ c <> Some p.
Proof.
  intros Hs Hu Hp Hne He Hn. exists (employeeNumber u). split.
  - apply (acs_cardId w req s u Hs Hu).
    apply cardMismatch_false_match. unfold js_or. by rewrite He, Hn, Hp.
  - intros Heq. rewrite Heq in He. by destruct p.
Qed.

(** On the mismatch path the handler stores no identity, and the logout
    it starts leaves a new, empty session: the pending card, the
    Passport login and whatever else the session held are gone. *)
Lemma acs_denies_session (w : World) (req : Request) (s : Session) (u : SamlUser) :
  session req = Some s -> req_user req = Some u ->
  cardMismatch s u = true ->
  session (acsHandler hmac w req).1 = Some emptySession.
Proof.
  intros Hs Hu Hm. rewrite (acs_denies hmac w req s u Hs Hu Hm).
  unfold clearSamlSession, req_logout. rewrite Hs. reflexivity.
Qed.

(** Card mismatch, seen from the handler: whenever [acsHandler] runs on
    a session whose pending card differs from the identifier of the
    assertion, it answers 403 with the authorization error code, and
    once the logout has completed nothing is pending, no identity is
    kept and the next status query answers not authenticated. *)
Lemma mismatch_is_denied (w : World) (req : Request) (s : Session)
    (u : SamlUser) (h : gmap string jsstring) (q b : gmap string jsval) :
  session req = Some s -> req_user req = Some u ->
  cardMismatch s u = true ->
  let after := (acsHandler hmac w req).1 in
  (acsHandler hmac w req).2 =
    Json 403 (errorResponse3 (uuid w) ERROR_CODES.AUTHORIZATION_ERROR
                "Card ID does not match authenticated user. Access denied."
                "cardValidation") /\
  session after ≫= pendingCardId = None /\
  session after ≫= user = None /\
  statusRoute (nextRequest after h q b)
    = Json 200 (JObj [("isAuthenticated", JBool false)]).
Proof.
  intros Hs Hu Hm. cbv zeta.
  pose proof (acs_denies_session w req s u Hs Hu Hm) as Hsess.
  repeat split.
  - by rewrite (acs_denies hmac w req s u Hs Hu Hm).
  - by rewrite Hsess.
  - by rewrite Hsess.
  - unfold statusRoute, nextRequest, isAuthenticated. by rewrite Hsess.
Qed.

(** [clearSamlSession] leaves the identity kept in [req.session.user]
    where it is. *)
Lemma clearSamlSession_keeps_user (req : Request) :
  session (clearSamlSession req) ≫= user = session req ≫= user.
Proof.
  unfold clearSamlSession. destruct (session req) eqn:Hs; [done|by rewrite Hs].
Qed.

(** On a session without [samlUser], which is every session the code
    produces, /card-scan does not touch the identity kept in
    [req.session.user]. *)
Lemma cardScan_keeps_user (w : World) (req : Request) :
  session req ≫= samlUser = None ->
  session (cardScan w req).1 ≫= user = session req ≫= user.
Proof.
  intros Hn. unfold cardScan.
  destruct (invalidCardId _); [done|].
  destruct (session req) as [s|] eqn:Hs.
  - simpl in Hn. rewrite Hn. simpl.
    destruct (saveFails w); [|destruct (jsonRequest _)]; simpl;
      unfold update_session; by rewrite Hs.
  - simpl. unfold clearSamlSession. rewrite Hs. by rewrite Hs.
Qed.

(** No handler ever assigns [req.session.samlUser]. *)
Definition noSamlUser (req : Request) : Prop :=
  session req ≫= samlUser = None.

Lemma noSamlUser_acs (w : World) (req : Request) :
  noSamlUser req -> noSamlUser (acsHandler hmac w req).1.
Proof.
  unfold noSamlUser, acsHandler. intros H.
  destruct (session req) as [s|] eqn:Hs; [|by session_step Hs].
  destruct (req_user req) as [u|]; [|by session_step Hs].
  destruct (truthy (pendingCardId s) && _).
  - by session_step Hs.
  - destruct (truthy (pendingCardId s)); by destruct (saveFails w).
Qed.

Lemma noSamlUser_cardScan (w : World) (req : Request) :
  noSamlUser req -> noSamlUser (cardScan w req).1.
Proof.
  unfold noSamlUser, cardScan. intros H.
  destruct (invalidCardId _); [done|].
  destruct (session req) as [s|] eqn:Hs; [|by session_step Hs].
  simpl in H. rewrite H. simpl.
  destruct (saveFails w); [|destruct (jsonRequest _)]; by session_step Hs.
Qed.

Lemma noSamlUser_next (prev : Request) (h : gmap string jsstring)
    (q b : gmap string jsval) :
  noSamlUser prev -> noSamlUser (nextRequest prev h q b).
Proof. unfold noSamlUser, nextRequest. by destruct (session prev). Qed.

Lemma noSamlUser_login (u : SamlUser) (req : Request) :
  noSamlUser req -> noSamlUser (req_login u req).
Proof.
  unfold noSamlUser, req_login. intros H.
  destruct (session req) eqn:Hs; by session_step Hs.
Qed.

Lemma noSamlUser_intent (role : string) (req : Request) :
  noSamlUser req -> noSamlUser (loginIntent role req).
Proof.
  unfold noSamlUser, loginIntent. intros H.
  destruct (session req) eqn:Hs; by session_step Hs.
Qed.

Lemma noSamlUser_detect (req : Request) :
  noSamlUser req -> noSamlUser (detectDeviceMiddleware req).
Proof.
  unfold noSamlUser, detectDeviceMiddleware. intros H.
  destruct (isMobileApp req); [|by destruct (isMobileBrowser req)].
  destruct (session req) eqn:Hs; by session_step Hs.
Qed.

(** So /saml/logout answers 401 to every session that has no samlUser,
    and changes nothing. *)
Lemma logout_requires_samlUser (w : World) (req : Request) (s : Session) :
  session req = Some s -> samlUser s = None ->
  logoutRoute w req =
    (req, Json 401 (errorResponse3 (uuid w) ERROR_CODES.AUTHENTICATION_ERROR
                      "SAML authentication required. Please login via /saml/login"
                      "authentication")).
Proof.
  intros Hs Hn. unfold logoutRoute, requireSamlAuth. rewrite Hs, Hn.
  by destruct (req_user req).
Qed.

End SessionFacts.

(** ** Redirect after a successful authentication *)

Lemma dashboardPath_slash (role : jsstring) :
  startsWith (dashboardPath role) (lit "/") = true.
Proof. unfold dashboardPath. by repeat case_bool_decide. Qed.

Lemma isMobileApp_established (req : Request) (s : Session) (u : SamlUser) :
  session req = Some s ->
  isMobileApp (set_session req (Some (establishedSession s u))) = isMobileApp req.
Proof.
  intros Hs. unfold isMobileApp. simpl. rewrite Hs.
  unfold establishedSession. by destruct (truthy (pendingCardId s)).
Qed.

(** The base URL of a device class. *)
Definition baseUrl (e : Env) (mobileApp : bool) : jsstring :=
  if mobileApp then or_default (MOBILE_APP_URL e) (lit "http://localhost")
  else or_default (CLIENT_URL e) (lit "http://localhost:5173").

(** The claim as the specification words it: every redirect after a
    successful authentication carries a session_token parameter. *)
Definition tokenOnEveryRedirect : Prop :=
  forall (hmac : jsstring -> jsstring -> jsstring) (w : World) (req : Request)
         (s : Session) (u : SamlUser),
    session req = Some s -> req_user req = Some u ->
    cardMismatch s u = false -> saveFails w = false ->
    exists url, (acsHandler hmac w req).2 = Redirect url
                /\ includes url (lit "session_token=") = true.

(** A deployment without SESSION_SECRET (the session middleware of
    server.js then runs on its built-in default secret). *)
Definition noSecretWorld : World :=
  {| env := {| MOBILE_APP_URL := None; CLIENT_URL := None;
               SESSION_SECRET := None |};
     uuid := lit "c0ffee";
     saveFails := false |}.

Definition aliceProfile : gmap string jsstring :=
  <["nameID" := lit "alice"]>
  (<["employeeNumber" := lit "11111"]>
  (<["email" := lit "alice@example.com"]>
  (<["firstName" := lit "Alice"]> ∅))).

Definition freshRequest : Request :=
  {| headers := ∅; query := ∅; body := ∅; session := Some emptySession;
     req_user := None; sessionID := lit "sid"; deviceType := None |}.

(** Without the secret, signing throws inside the try block and the
    redirect goes out bare. *)
Lemma redirect_without_secret_has_no_token : ~ tokenOnEveryRedirect.
Proof.
  intros H.
  destruct (H (fun _ _ => []) noSecretWorld
              (req_login (userAttributes aliceProfile) freshRequest)
              (set_passport emptySession (Some (userAttributes aliceProfile)))
              (userAttributes aliceProfile)
              eq_refl eq_refl eq_refl eq_refl) as [url [Hr Hi]].
  vm_compute in Hr. injection Hr as <-.
  vm_compute in Hi. discriminate.
Qed.

(** C6, amended. After a successful authentication (card matched or no
    card pending) whose session save succeeds, the redirect goes to the
    base URL of the device class (the mobile-app base for a mobile app,
    the web base otherwise) followed by the dashboard path of the role,
    and, for either device class, whenever SESSION_SECRET is set and the
    signed id can be encoded, it ends with the query parameter
    session_token holding the encoded 's:' + signed session id. *)
Theorem redirect_carries_token (hmac : jsstring -> jsstring -> jsstring)
    (w : World) (req : Request) (s : Session) (u : SamlUser)
    (secret token : jsstring) :
  session req = Some s -> req_user req = Some u ->
  cardMismatch s u = false -> saveFails w = false ->
  SESSION_SECRET (env w) = Some secret ->
  encodeURIComponent
    (lit "s:" ++ sessionID req ++ lit "." ++ hmac secret (sessionID req))
    = Some token ->
  let destination :=
    baseUrl (env w) (isMobileApp req)
    ++ dashboardPath (or_default (loginRole s) (lit "worker")) in
  let separator := if includes destination (lit "?") then lit "&" else lit "?" in
  (acsHandler hmac w req).2
    = Redirect (destination ++ separator ++ lit "session_token=" ++ token).
Proof.
  intros Hs Hu Hm Hsave Hsecret Henc.
  rewrite (acs_accepts hmac w req s u Hs Hu Hm). cbv zeta.
  rewrite Hsave. unfold snd.
  unfold appendSessionToken, sign. rewrite Hsecret, Henc.
  unfold getRedirectUrl. cbv zeta.
  rewrite (isMobileApp_established req s u Hs), dashboardPath_slash.
  unfold baseUrl. by destruct (isMobileApp req).
Qed.

(** A stand-in for the HMAC in worked examples. *)
Definition sampleMac (secret val : jsstring) : jsstring := lit "mac+/".

Definition appLogin : Request :=
  req_login (userAttributes aliceProfile)
    (set_headers freshRequest (<["x-app-platform" := lit "mobile"]> ∅)).

Definition webLogin : Request :=
  req_login (userAttributes aliceProfile) freshRequest.

Lemma redirect_carries_token_witness :
  (acsHandler sampleMac quietWorld appLogin).2
    = Redirect (lit "http://localhost/dashboard/worker?session_token=s%3Asid.mac%2B%2F") /\
  (acsHandler sampleMac quietWorld webLogin).2
    = Redirect (lit "http://localhost:5173/dashboard/worker?session_token=s%3Asid.mac%2B%2F").
Proof.
  split.
  - apply (redirect_carries_token sampleMac quietWorld appLogin
             (set_passport emptySession (Some (userAttributes aliceProfile)))
             (userAttributes aliceProfile) (lit "secret")
             (lit "s%3Asid.mac%2B%2F")); reflexivity.
  - apply (redirect_carries_token sampleMac quietWorld webLogin
             (set_passport emptySession (Some (userAttributes aliceProfile)))
             (userAttributes aliceProfile) (lit "secret")
             (lit "s%3Asid.mac%2B%2F")); reflexivity.
Defined.

(** ** Worked flows *)

Definition jsonHeaders : gmap string jsstring :=
  <["content-type" := lit "application/json"]> ∅.

Definition scanBody (cardId : string) : gmap string jsval :=
  <["cardId" := JStr (lit cardId)]> ∅.

(** An assertion that carries only a NameID, equal to the card 12345. *)
Definition nameIdProfile : gmap string jsstring :=
  <["nameID" := lit "12345"]> ∅.

(** An assertion for another card than the scanned one. *)
Definition bobProfile : gmap string jsstring :=
  <["nameID" := lit "bob"]> (<["employeeNumber" := lit "99999"]> ∅).

(** The identity [acsHandler] stores for Alice. *)
Definition aliceIdentity : SessionUser :=
  {| u_nameID := Some (lit "alice");
     u_workerId := Some (lit "11111");
     u_employeeNumber := Some (lit "11111");
     u_email := Some (lit "alice@example.com");
     u_firstName := Some (lit "Alice");
     u_lastName := None;
     u_name := lit "Alice";
     u_cardId := Some (lit "11111");
     u_establishmentId := JNull;
     u_role := lit "worker" |}.

(** The identity [acsHandler] stores for Bob, whose assertion carries no
    first name. *)
Definition bobIdentity : SessionUser :=
  {| u_nameID := Some (lit "bob");
     u_workerId := Some (lit "99999");
     u_employeeNumber := Some (lit "99999");
     u_email := None;
     u_firstName := None;
     u_lastName := None;
     u_name := lit "undefined";
     u_cardId := Some (lit "99999");
     u_establishmentId := JNull;
     u_role := lit "worker" |}.

Section Flows.

Variable hmac : jsstring -> jsstring -> jsstring.

(** Scan of card 12345 on a fresh session. *)
Definition scanned : Request :=
  (cardScan quietWorld (nextRequest freshRequest jsonHeaders ∅ (scanBody "12345"))).1.

(** ... followed by a login whose assertion has the NameID 12345 and no
    employeeNumber. *)
Definition nameIdLogin : Request * Response :=
  acsHandler hmac quietWorld
    (req_login (userAttributes nameIdProfile) (nextRequest scanned ∅ ∅ ∅)).

(** Alice logs in directly (no card pending). *)
Definition aliceLoggedIn : Request :=
  (acsHandler hmac quietWorld
     (req_login (userAttributes aliceProfile) freshRequest)).1.

(** ... then card 12345 is scanned on her session. *)
Definition scanWhileLoggedIn : Request * Response :=
  cardScan quietWorld
    (nextRequest aliceLoggedIn jsonHeaders ∅ (scanBody "12345")).

(** Card 12345 is scanned on a fresh session, then Bob, who holds card
    99999, comes back from the identity provider: the request Passport
    hands to [acsHandler] ... *)
Definition bobCallback : Request :=
  req_login (userAttributes bobProfile) (nextRequest scanned ∅ ∅ ∅).

(** ... and what [acsHandler] makes of it. *)
Definition bobLogin : Request * Response :=
  acsHandler hmac quietWorld bobCallback.

(** Alice, logged in, posts to /saml/logout. *)
Definition aliceLogout : Request * Response :=
  logoutRoute quietWorld (nextRequest aliceLoggedIn jsonHeaders ∅ ∅).

(** C1 (the code departs from the claim). Card 12345 is pending and the
    assertion's identifier, its NameID since it has no employeeNumber,
    is 12345: the handler accepts, redirects and stores an identity
    whose cardId is undefined instead of 12345. *)
Theorem nameid_match_stores_no_cardId :
  session scanned ≫= pendingCardId = Some (lit "12345") /\
  js_or (employeeNumber (userAttributes nameIdProfile))
        (nameID (userAttributes nameIdProfile)) = Some (lit "12345") /\
  match nameIdLogin.2 with Redirect _ => True | _ => False end /\
  u_cardId <$> (session nameIdLogin.1 ≫= user) = Some None.
Proof. repeat split. Qed.

(** C3 (the code departs from the claim). A valid card scan on the
    session of a logged-in user stores the pending card but performs no
    logout: the identity stays in the session and the status query
    still reports it. *)
Theorem scan_keeps_authenticated_identity :
  session aliceLoggedIn ≫= user = Some aliceIdentity /\
  session scanWhileLoggedIn.1 ≫= pendingCardId = Some (lit "12345") /\
  session scanWhileLoggedIn.1 ≫= user = Some aliceIdentity /\
  statusRoute (nextRequest scanWhileLoggedIn.1 ∅ ∅ ∅)
    = Json 200 (JObj [("isAuthenticated", JBool true);
                      ("user", json_of_SessionUser aliceIdentity)]).
Proof. repeat split. Qed.

(** C2 (the code departs from the claim). Card 12345 is pending and
    Bob's assertion carries the identifier 99999; Passport's login
    regenerates the session, so no card is pending when [acsHandler]
    runs: it takes the path of a direct login, stores Bob's identity and
    redirects, and the next status query reports Bob as authenticated,
    instead of the 403 and the unauthenticated status of the claim. *)
Theorem other_card_login_is_accepted :
  session scanned ≫= pendingCardId = Some (lit "12345") /\
  js_or (employeeNumber (userAttributes bobProfile))
        (nameID (userAttributes bobProfile)) = Some (lit "99999") /\
  session bobCallback ≫= pendingCardId = None /\
  match bobLogin.2 with Redirect _ => True | _ => False end /\
  session bobLogin.1 ≫= user = Some bobIdentity /\
  statusRoute (nextRequest bobLogin.1 ∅ ∅ ∅)
    = Json 200 (JObj [("isAuthenticated", JBool true);
                      ("user", json_of_SessionUser bobIdentity)]).
Proof. repeat split. Qed.

(** C4 (the code departs from the claim). The session the assertion
    consumer created for Alice is turned away by /saml/logout with 401,
    and is not destroyed. *)
Theorem logout_rejects_authenticated_session :
  session aliceLoggedIn ≫= user = Some aliceIdentity /\
  aliceLogout.2 =
    Json 401 (errorResponse3 (lit "c0ffee") ERROR_CODES.AUTHENTICATION_ERROR
                "SAML authentication required. Please login via /saml/login"
                "authentication") /\
  session aliceLogout.1 ≫= user = Some aliceIdentity.
Proof. repeat split. Qed.

End Flows.

(** ** Card scan, continued: the scanned card and the later assertion *)



(** The callback of an assertion on a session that holds the pending
    card 12345, as [acsHandler] would see it if the session of the scan
    were the one Passport logs into. *)
Definition pendingCallback (profile : gmap string jsstring) : Request :=
  {| headers := ∅; query := ∅; body := ∅;
     session := Some (set_passport
                        (set_pendingCardId emptySession (Some (lit "12345")))
                        (Some (userAttributes profile)));
     req_user := Some (userAttributes profile);
     sessionID := lit "sid"; deviceType := None |}.


(** * Further coverage *)

(** ** utils/deviceDetection.js: the three device classes *)

Record DeviceInfo := {
  di_isMobileApp : bool;
  di_isMobileBrowser : bool;
  di_isDesktopBrowser : bool;
  di_userAgent : option jsstring;
  di_origin : option jsstring;
  di_referer : option jsstring;
  di_xAppPlatform : option jsstring;
  di_xClientType : option jsstring
}.

Definition getDeviceInfo (req : Request) : DeviceInfo :=
  let isMobile := isMobileApp req in
  let isMobileBrow := negb isMobile && isMobileBrowser req in
  let isDesktop := negb isMobile && negb isMobileBrow in
  {| di_isMobileApp := isMobile;
     di_isMobileBrowser := isMobileBrow;
     di_isDesktopBrowser := isDesktop;
     di_userAgent := headers req !! "user-agent";
     di_origin := headers req !! "origin";
     di_referer := headers req !! "referer";
     di_xAppPlatform := headers req !! "x-app-platform";
     di_xClientType := headers req !! "x-client-type" |}.

(** Exactly one of three flags is set. *)
Definition exactlyOne (a b c : bool) : bool :=
  (a && negb b && negb c) || (negb a && b && negb c) || (negb a && negb b && c).

(** The sticky flag only ever adds to the mobile-app signals. *)
Lemma isMobileApp_flagged (req : Request) (s : Session) :
  mobileFlag s = true -> isMobileApp (set_session req (Some s)) = true.
Proof.
  intros Hf. unfold isMobileApp. simpl. rewrite Hf.
  repeat match goal with |- (if ?b then _ else _) = _ => destruct b; [reflexivity|] end.
  reflexivity.
Qed.

Lemma isMobileApp_deviceType (req : Request) (d : jsstring) :
  isMobileApp (set_deviceType req d) = isMobileApp req.
Proof. reflexivity. Qed.

Lemma isMobileBrowser_deviceType (req : Request) (d : jsstring) :
  isMobileBrowser (set_deviceType req d) = isMobileBrowser req.
Proof. reflexivity. Qed.

Lemma startsWith_app (p s : jsstring) : startsWith (p ++ s) p = true.
Proof.
  induction p as [|c p IH]; [by destruct s|].
  simpl. by rewrite N.eqb_refl.
Qed.

(** Every request falls in exactly one of the classes mobile app, mobile
    browser and desktop browser; [getDeviceInfo] reports that class and
    [detectDeviceMiddleware] names it in [req.deviceType]. *)
Theorem device_classes_partition (req : Request) :
  exactlyOne (isMobileApp req) (isMobileBrowser req) (isDesktopBrowser req) = true /\
  di_isMobileApp (getDeviceInfo req) = isMobileApp req /\
  di_isMobileBrowser (getDeviceInfo req) = isMobileBrowser req /\
  di_isDesktopBrowser (getDeviceInfo req) = isDesktopBrowser req /\
  deviceType (detectDeviceMiddleware req) =
    Some (if isMobileApp req then lit "mobile-app"
          else if isMobileBrowser req then lit "mobile-browser"
          else lit "desktop-browser").
Proof.
  assert (Hx : isMobileApp req = true -> isMobileBrowser req = false).
  { intros Ha. unfold isMobileBrowser. rewrite Ha. apply andb_false_r. }
  unfold getDeviceInfo, isDesktopBrowser, detectDeviceMiddleware.
  destruct (isMobileApp req) eqn:Ha.
  - rewrite (Hx eq_refl). simpl. repeat split. by destruct (session req).
  - destruct (isMobileBrowser req); simpl; repeat split.
Qed.

(** With none of the signals present (no platform, origin, referer or
    user-agent header, no platform or app query parameter, no sticky flag)
    the request is a desktop browser and is redirected to the web base. *)
Theorem no_signal_is_desktop (e : Env) (req : Request) (path : jsstring) :
  headers req !! "x-app-platform" = None ->
  headers req !! "x-client-type" = None ->
  headers req !! "origin" = None ->
  headers req !! "referer" = None ->
  headers req !! "user-agent" = None ->
  query req !! "platform" = None ->
  query req !! "app" = None ->
  mobileFlag <$> session req <> Some true ->
  deviceType (detectDeviceMiddleware req) = Some (lit "desktop-browser") /\
  session (detectDeviceMiddleware req) = session req /\
  startsWith (getRedirectUrl e req path)
    (or_default (CLIENT_URL e) (lit "http://localhost:5173")) = true.
Proof.
  intros H1 H2 H3 H4 H5 H6 H7 H8.
  assert (Ha : isMobileApp req = false).
  { unfold isMobileApp, header_is, param_is, js_or.
    rewrite H1, H2, H3, H4, H5, H6, H7. simpl.
    destruct (session req) as [s|]; [|done].
    destruct (mobileFlag s) eqn:Hf; [|done].
    exfalso. apply H8. simpl. by rewrite Hf. }
  assert (Hb : isMobileBrowser req = false).
  { unfold isMobileBrowser. by rewrite H5. }
  unfold detectDeviceMiddleware, getRedirectUrl. rewrite Ha, Hb.
  repeat split. apply startsWith_app.
Qed.

Definition bareRequest : Request :=
  {| headers := ∅; query := ∅; body := ∅; session := Some emptySession;
     req_user := None; sessionID := lit "sid"; deviceType := None |}.

Lemma no_signal_is_desktop_witness :
  deviceType (detectDeviceMiddleware bareRequest) = Some (lit "desktop-browser") /\
  session (detectDeviceMiddleware bareRequest) = session bareRequest /\
  startsWith (getRedirectUrl (env quietWorld) bareRequest (lit "/dashboard/worker"))
    (or_default (CLIENT_URL (env quietWorld)) (lit "http://localhost:5173")) = true.
Proof.
  apply (no_signal_is_desktop (env quietWorld) bareRequest (lit "/dashboard/worker"));
    try reflexivity.
  simpl. discriminate.
Defined.

Lemma detect_mobile (req : Request) :
  isMobileApp req = true ->
  detectDeviceMiddleware req =
    match session req with
    | Some s =>
      set_session (set_deviceType req (lit "mobile-app"))
                  (Some (set_mobileFlag s true))
    | None => set_deviceType req (lit "mobile-app")
    end.
Proof. intros H. unfold detectDeviceMiddleware. by rewrite H. Qed.

(** Once a request on a session has been classified as a mobile app, the
    flag the middleware writes into the session makes every later request
    on that session a mobile app too, whatever its headers and query
    are, and its redirects go to the mobile base. *)
Theorem sticky_flag_persists (e : Env) (req : Request) (s : Session)
    (h : gmap string jsstring) (q b : gmap string jsval) (path : jsstring) :
  session req = Some s ->
  isMobileApp req = true ->
  let later := nextRequest (detectDeviceMiddleware req) h q b in
  isMobileApp later = true /\
  deviceType (detectDeviceMiddleware later) = Some (lit "mobile-app") /\
  startsWith (getRedirectUrl e later path)
    (or_default (MOBILE_APP_URL e) (lit "http://localhost")) = true.
Proof.
  intros Hs Hm later.
  assert (Hl : isMobileApp later = true).
  { unfold later. rewrite (detect_mobile req Hm), Hs.
    apply (isMobileApp_flagged
             (nextRequest (set_deviceType req (lit "mobile-app")) h q b)
             (set_mobileFlag s true)).
    reflexivity. }
  split; [exact Hl|]. split.
  - rewrite (detect_mobile later Hl). by destruct (session later).
  - unfold getRedirectUrl. rewrite Hl. apply startsWith_app.
Qed.

Lemma sticky_flag_persists_witness :
  let later := nextRequest (detectDeviceMiddleware
                              (set_session desktopLookingAppRequest (Some emptySession)))
                 ∅ ∅ ∅ in
  isMobileApp later = true /\
  deviceType (detectDeviceMiddleware later) = Some (lit "mobile-app") /\
  startsWith (getRedirectUrl (env quietWorld) later (lit "/dashboard/worker"))
    (or_default (MOBILE_APP_URL (env quietWorld)) (lit "http://localhost")) = true.
Proof.
  apply (sticky_flag_persists (env quietWorld)
           (set_session desktopLookingAppRequest (Some emptySession))
           emptySession ∅ ∅ ∅ (lit "/dashboard/worker")); reflexivity.
Defined.

(** Running the middleware twice gives what running it once gives. *)
Theorem detectDevice_idempotent (req : Request) :
  detectDeviceMiddleware (detectDeviceMiddleware req) = detectDeviceMiddleware req.
Proof.
  destruct (isMobileApp req) eqn:Hm.
  - rewrite (detect_mobile req Hm).
    destruct (session req) as [s|] eqn:Hs.
    + rewrite detect_mobile by (by apply isMobileApp_flagged). reflexivity.
    + rewrite detect_mobile by (by rewrite isMobileApp_deviceType).
      simpl. by rewrite Hs.
  - unfold detectDeviceMiddleware at 2. rewrite Hm.
    destruct (isMobileBrowser req) eqn:Hb.
    + unfold detectDeviceMiddleware.
      by rewrite isMobileApp_deviceType, isMobileBrowser_deviceType, Hm, Hb.
    + unfold detectDeviceMiddleware.
      by rewrite isMobileApp_deviceType, isMobileBrowser_deviceType, Hm, Hb.
Qed.

(** A path given without its leading slash is redirected to the same URL
    as the path with it, namely base + '/' + path. *)
Theorem redirect_path_normalised (e : Env) (req : Request) (path : jsstring) :
  startsWith path (lit "/") = false ->
  getRedirectUrl e req path = getRedirectUrl e req (lit "/" ++ path) /\
  getRedirectUrl e req path = baseUrl e (isMobileApp req) ++ lit "/" ++ path.
Proof.
  intros Hp. unfold getRedirectUrl, baseUrl. rewrite Hp.
  assert (Hs : startsWith (lit "/" ++ path) (lit "/") = true)
    by apply startsWith_app.
  rewrite Hs. by destruct (isMobileApp req).
Qed.

Lemma redirect_path_normalised_witness :
  getRedirectUrl (env quietWorld) bareRequest (lit "dashboard/worker")
    = lit "http://localhost:5173/dashboard/worker".
Proof.
  rewrite (proj2 (redirect_path_normalised (env quietWorld) bareRequest
                    (lit "dashboard/worker") eq_refl)).
  reflexivity.
Defined.

(** An Origin that begins with http://localhost (or, when there is no
    Origin, such a Referer) makes the request a mobile app, whatever the
    port: the web client served from http://localhost:5173 is classified
    as the app and redirected to the mobile base. *)
Theorem localhost_origin_is_app (e : Env) (req : Request) (origin path : jsstring) :
  js_or (headers req !! "origin") (headers req !! "referer") = Some origin ->
  startsWith origin (lit "http://localhost") = true ->
  isMobileApp req = true /\
  getRedirectUrl e req path =
    or_default (MOBILE_APP_URL e) (lit "http://localhost")
    ++ (if startsWith path (lit "/") then path else lit "/" ++ path).
Proof.
  intros Ho Hl.
  assert (Hm : isMobileApp req = true).
  { unfold isMobileApp. rewrite Ho.
    destruct (header_is _ _ || header_is _ _); [reflexivity|].
    destruct origin as [|c o]; [discriminate Hl|].
    unfold mobileOriginPatterns. cbn [existsb]. by rewrite Hl. }
  split; [exact Hm|]. unfold getRedirectUrl. by rewrite Hm.
Qed.

Definition devServerRequest : Request :=
  {| headers := <["origin" := lit "http://localhost:5173"]>
                (<["user-agent" := lit "Mozilla/5.0 (X11; Linux x86_64)"]> ∅);
     query := ∅; body := ∅; session := Some emptySession; req_user := None;
     sessionID := lit "sid"; deviceType := None |}.

Lemma localhost_origin_is_app_witness :
  isMobileApp devServerRequest = true /\
  getRedirectUrl (env quietWorld) devServerRequest (lit "/dashboard/worker")
    = lit "http://localhost/dashboard/worker".
Proof.
  apply (localhost_origin_is_app (env quietWorld) devServerRequest
           (lit "http://localhost:5173") (lit "/dashboard/worker"));
    reflexivity.
Defined.

(** ** middleware/samlAuth.js: the remaining helpers *)

(** What [checkCardScanPending] attaches to the request. *)
Record ScanMark := {
  cardScanPending : bool;
  markedCardId : option jsstring
}.

(** [checkCardScanPending]; [None] is the TypeError of reading a property
    of a missing session. *)
Definition checkCardScanPending (req : Request) : option ScanMark :=
  match session req with
  | Some s =>
    if truthy (pendingCardId s)
    then Some {| cardScanPending := true; markedCardId := pendingCardId s |}
    else Some {| cardScanPending := false; markedCardId := None |}
  | None => None
  end.

(** [getSamlUser]: [req.session.samlUser || null] *)
Definition getSamlUser (req : Request) : option (option SamlUser) :=
  match session req with
  | Some s => Some (samlUser s)
  | None => None
  end.

(** [getPendingCardId]: [req.session.pendingCardId || null] *)
Definition getPendingCardId (req : Request) : option (option jsstring) :=
  match session req with
  | Some s => Some (if truthy (pendingCardId s) then pendingCardId s else None)
  | None => None
  end.

(** ** middleware/auth.js: the session guard of the API routes *)

Inductive Guard :=
| Pass (user : jsval)
| Deny (r : Response).

(** [authenticateSession]: lets the request through with
    [req.user = req.session.user] when the session holds an identity,
    lets it through as it is when Passport says it is authenticated, and
    answers 401 otherwise. *)
Definition authenticateSession (uuid : jsstring) (req : Request) : Guard :=
  match session req ≫= user with
  | Some u => Pass (json_of_SessionUser u)
  | None =>
    if isAuthenticated req
    then Pass (from_option json_of_SamlUser JUndefined (req_user req))
    else Deny (Json 401 (errorResponse3 uuid ERROR_CODES.AUTHENTICATION_ERROR
                           "Session expired or invalid. Please login again."
                           "session"))
  end.

(** ** routes/auth.js *)

(** [String.prototype.split] on a one-character separator *)
Fixpoint splitOn (sep : N) (s : jsstring) : list jsstring :=
  match s with
  | [] => [[]]
  | c :: s' =>
    if c =? sep then [] :: splitOn sep s'
    else match splitOn sep s' with
         | piece :: pieces => (c :: piece) :: pieces
         | [] => [[c]]
         end
  end.

(** [cookie.split(';').map(c => c.trim().split('=')[0])], and [[]] when
    there is no cookie header *)
Definition cookieNames (cookie : option jsstring) : list jsstring :=
  match cookie with
  | Some (c :: s) =>
    (fun c => default [] (head (splitOn 61 (trim c)))) <$> splitOn 59 (c :: s)
  | _ => []
  end.

(** GET /api/auth/user *)
Definition authUserRoute (req : Request) : Response :=
  match session req ≫= user with
  | Some u =>
    Json 200 (JObj [("authenticated", JBool true);
                    ("user", json_of_SessionUser u)])
  | None =>
    Json 401 (JObj [("authenticated", JBool false);
                    ("user", JNull);
                    ("debug",
                     JObj [("sessionExists", JBool (bool_decide (is_Some (session req))));
                           ("sessionID", JStr (sessionID req));
                           ("hasCookie", JBool (truthy (headers req !! "cookie")));
                           ("cookieNames",
                            JArr (JStr <$> cookieNames (headers req !! "cookie")))])])
  end.

(** GET /api/auth/status: [isAuthenticated] is the value of
    [req.session && req.session.user], the identity object or
    undefined. *)
Definition authStatusRoute (req : Request) : Response :=
  let isAuthenticated :=
    match session req with
    | Some s => from_option json_of_SessionUser JUndefined (user s)
    | None => JUndefined
    end in
  Json 200 (JObj [("authenticated", isAuthenticated);
                  ("user", if js_truthy isAuthenticated
                           then from_option json_of_SessionUser JUndefined
                                  (session req ≫= user)
                           else JNull)]).

(** ** routes/saml.js: the GET shim in front of the assertion consumer *)

(** GET /saml/acs: a SAMLResponse found in the query string is copied
    into the body (with RelayState when there is one) and the request goes
    on as a POST; without it the answer is 400. *)
Definition acsProxy (req : Request) : Request * jsstring + Response :=
  let SAMLResponse := default JUndefined (query req !! "SAMLResponse") in
  if js_truthy SAMLResponse then
    let body1 := <["SAMLResponse" := SAMLResponse]> (body req) in
    let RelayState := default JUndefined (query req !! "RelayState") in
    let body2 := if js_truthy RelayState
                 then <["RelayState" := RelayState]> body1 else body1 in
    inl ({| headers := headers req; query := query req; body := body2;
            session := session req; req_user := req_user req;
            sessionID := sessionID req; deviceType := deviceType req |},
         lit "POST")
  else inr (Send 400 (lit "SAMLResponse missing in GET request")).

(** ** server.js: CORS and the session cookie *)

Inductive CorsBranch := NoOrigin | Whitelisted | Wildcard | Unlisted.

(** [s.replace(/\/$/, '')] *)
Definition stripTrailingSlash (s : jsstring) : jsstring :=
  match reverse s with
  | 47 :: r => reverse r
  | _ => s
  end.

(** The constants of server.js read from the environment. *)
Definition FRONTEND_URL (env_FRONTEND_URL : option jsstring) : jsstring :=
  or_default env_FRONTEND_URL (lit "http://localhost:5173").

Definition allowedOrigins (frontend : jsstring) (client : option jsstring) : list jsstring :=
  omap (fun o : option jsstring => if truthy o then o else None)
    [Some (lit "https://dulcet-cobbler-4df9df.netlify.app");
     Some frontend;
     client;
     Some (lit "http://localhost:5173");
     Some (lit "http://localhost:5174");
     Some (lit "http://localhost:3000");
     Some (lit "http://localhost:8080");
     Some (lit "http://localhost:8100");
     Some (lit "capacitor://localhost");
     Some (lit "ionic://localhost");
     Some (lit "http://localhost");
     Some (lit "file://");
     Some (lit "https://idp.eu.safenetid.com");
     Some (lit "https://idp.safenetid.com");
     Some (lit "https://idp.us.safenetid.com");
     Some (lit "https://idp.ap.safenetid.com")].

(** The [origin] function of [corsOptions]: the branch taken and the
    verdict passed to the callback. *)
Definition corsOrigin (env_FRONTEND_URL env_CLIENT_URL origin : option jsstring)
    : CorsBranch * bool :=
  let frontend := FRONTEND_URL env_FRONTEND_URL in
  match origin with
  | Some (c :: o) =>
    let normalizedOrigin := stripTrailingSlash (c :: o) in
    let isAllowed :=
      existsb (fun allowed =>
                 match allowed with
                 | [] => false
                 | _ => bool_decide (stripTrailingSlash allowed = normalizedOrigin)
                 end)
              (allowedOrigins frontend env_CLIENT_URL) in
    if isAllowed then (Whitelisted, true)
    else if bool_decide (frontend = lit "*")
            || (truthy env_CLIENT_URL && bool_decide (env_CLIENT_URL = Some (lit "*")))
    then (Wildcard, true)
    else (Unlisted, true)
  | _ => (NoOrigin, true)
  end.

(** [process.env.NAME === 'literal'] *)
Definition env_is (v : option jsstring) (l : string) : bool :=
  bool_decide (v = Some (lit l)).

Record CookieConfig := {
  ck_secure : bool;
  ck_httpOnly : bool;
  ck_maxAge : Z;
  ck_sameSite : jsstring
}.

Definition getSessionCookieConfig (NODE_ENV RENDER ON_RENDER : option jsstring)
    : CookieConfig :=
  let isProduction :=
    env_is NODE_ENV "production" || env_is RENDER "true"
    || env_is ON_RENDER "true" in
  if isProduction then
    {| ck_secure := true; ck_httpOnly := true;
       ck_maxAge := (24 * 60 * 60 * 1000)%Z; ck_sameSite := lit "none" |}
  else
    {| ck_secure := false; ck_httpOnly := true;
       ck_maxAge := (24 * 60 * 60 * 1000)%Z; ck_sameSite := lit "lax" |}.

(** The cookie settings GET /api/auth/session-info reports. *)
Definition sessionInfoCookieSettings (NODE_ENV : option jsstring) : jsval :=
  JObj [("secure", JBool (env_is NODE_ENV "production"));
        ("sameSite", JStr (if env_is NODE_ENV "production"
                           then lit "none" else lit "lax"));
        ("httpOnly", JBool true);
        ("maxAge", JStr (lit "24 hours"))].

(** ** Properties of the helpers and guards *)

(** After [clearSamlSession] nothing is pending: the scan helpers report
    no card and no SAML user, the SAML guard answers 401, and clearing
    again changes nothing. *)
Theorem cleared_session_reports_no_scan (uuid : jsstring) (req : Request)
    (s : Session) (next : Request -> Request * Response) :
  session req = Some s ->
  let cleared := clearSamlSession req in
  checkCardScanPending cleared
    = Some {| cardScanPending := false; markedCardId := None |} /\
  getPendingCardId cleared = Some None /\
  getSamlUser cleared = Some None /\
  requireSamlAuth uuid cleared next =
    (cleared, Json 401 (errorResponse3 uuid ERROR_CODES.AUTHENTICATION_ERROR
                          "SAML authentication required. Please login via /saml/login"
                          "authentication")) /\
  clearSamlSession cleared = cleared.
Proof.
  intros Hs. unfold clearSamlSession. rewrite Hs. simpl. repeat split.
  unfold requireSamlAuth. simpl. by destruct (req_user req).
Qed.

Lemma cleared_session_reports_no_scan_witness :
  getPendingCardId (clearSamlSession scanned) = Some None.
Proof.
  apply (cleared_session_reports_no_scan (lit "c0ffee") scanned
           (set_pendingCardId emptySession (Some (lit "12345")))
           (fun r => (r, Uncaught))).
  reflexivity.
Defined.

(** A valid scan on a session without [samlUser] (no logout is started)
    whose session save succeeds is what the scan helpers report on the
    next request of the session: a pending card, equal to the trimmed
    cardId. *)
Theorem scan_is_reported_pending (w : World) (req : Request) (s : Session)
    (c : jsstring) (h : gmap string jsstring) (q b : gmap string jsval) :
  session req = Some s ->
  samlUser s = None ->
  body req !! "cardId" = Some (JStr c) ->
  trim c <> [] ->
  saveFails w = false ->
  let later := nextRequest (cardScan w req).1 h q b in
  checkCardScanPending later
    = Some {| cardScanPending := true; markedCardId := Some (trim c) |} /\
  getPendingCardId later = Some (Some (trim c)).
Proof.
  intros Hs _ Hb Ht _ later.
  assert (Hp : pendingCardId <$> session later = Some (Some (trim c))).
  { unfold later, nextRequest. simpl.
    by rewrite (cardScan_session w req s c Hs Hb Ht). }
  unfold checkCardScanPending, getPendingCardId.
  destruct (session later) as [s'|]; [|discriminate Hp].
  simpl in Hp. injection Hp as ->.
  destruct (trim c); [done|]. by split.
Qed.

Lemma scan_is_reported_pending_witness :
  getPendingCardId (nextRequest (cardScan quietWorld scanRequest).1 ∅ ∅ ∅)
    = Some (Some (lit "12345")).
Proof.
  apply (scan_is_reported_pending quietWorld scanRequest emptySession
           (lit " 12345 ") ∅ ∅ ∅).
  - reflexivity.
  - reflexivity.
  - reflexivity.
  - vm_compute. discriminate.
  - reflexivity.
Defined.

(** [clearSamlSession] by itself does not revoke the access the API
    guard grants: a session that holds an identity passes
    [authenticateSession] before and after it. The access ends with the
    Passport logout that follows it in the handlers, which leaves a new
    session: on the next request the guard answers 401. *)
Theorem guard_survives_clearSamlSession (uuid : jsstring) (req : Request)
    (u : SessionUser) (h : gmap string jsstring) (q b : gmap string jsval) :
  session req ≫= user = Some u ->
  authenticateSession uuid req = Pass (json_of_SessionUser u) /\
  authenticateSession uuid (clearSamlSession req)
    = Pass (json_of_SessionUser u) /\
  authenticateSession uuid
    (nextRequest (req_logout (clearSamlSession req)) h q b)
    = Deny (Json 401 (errorResponse3 uuid ERROR_CODES.AUTHENTICATION_ERROR
                        "Session expired or invalid. Please login again."
                        "session")).
Proof.
  intros Hu. unfold authenticateSession. rewrite Hu.
  destruct (session req) as [s|] eqn:Hs; [|discriminate Hu].
  unfold clearSamlSession, req_logout, nextRequest. rewrite Hs. simpl.
  simpl in Hu. by rewrite Hu.
Qed.

Lemma guard_survives_clearSamlSession_witness :
  authenticateSession (lit "c0ffee") (clearSamlSession (aliceLoggedIn sampleMac))
  = Pass (json_of_SessionUser aliceIdentity).
Proof.
  apply (guard_survives_clearSamlSession (lit "c0ffee")
           (aliceLoggedIn sampleMac) aliceIdentity ∅ ∅ ∅).
  reflexivity.
Defined.

(** ** The flows around the assertion consumer *)

Section FlowFacts.

Variable hmac : jsstring -> jsstring -> jsstring.

Lemma establishedSession_pending (s : Session) (u : SamlUser) :
  truthy (pendingCardId (establishedSession s u)) = false.
Proof.
  unfold establishedSession.
  destruct (truthy (pendingCardId s)) eqn:Hp; simpl; [reflexivity|exact Hp].
Qed.

Lemma establishedSession_user (s : Session) (u : SamlUser) :
  exists ident, user (establishedSession s u) = Some ident /\
                u_nameID ident = nameID u /\
                u_cardId ident = employeeNumber u /\
                u_role ident = or_default (loginRole s) (lit "worker").
Proof.
  unfold establishedSession. eexists. split; [reflexivity|].
  by destruct (truthy (pendingCardId s)).
Qed.

Lemma appendSessionToken_prefix (e : Env) (sid url : jsstring) :
  startsWith (appendSessionToken hmac e sid url) url = true.
Proof.
  unfold appendSessionToken.
  destruct (sign hmac sid (SESSION_SECRET e)); [|by rewrite <- (app_nil_r url) at 1; apply startsWith_app].
  destruct (encodeURIComponent _).
  - apply startsWith_app.
  - rewrite <- (app_nil_r url) at 1. apply startsWith_app.
Qed.

(** An accepted assertion whose session save succeeds establishes the
    session for every endpoint that reads it: on the next request
    /saml/status, /api/auth/user, /api/auth/status and the API guard all
    report the stored identity, whose cardId is the assertion's
    employeeNumber and whose role is the [loginRole] of the session the
    handler ran on (worker when there is none). *)
Theorem established_session_is_recognised (w : World) (req : Request)
    (s : Session) (u : SamlUser) (uuid' : jsstring)
    (h : gmap string jsstring) (q b : gmap string jsval) :
  session req = Some s -> req_user req = Some u ->
  cardMismatch s u = false ->
  saveFails w = false ->
  let later := nextRequest (acsHandler hmac w req).1 h q b in
  exists ident,
    u_cardId ident = employeeNumber u /\
    u_role ident = or_default (loginRole s) (lit "worker") /\
    statusRoute later =
      Json 200 (JObj [("isAuthenticated", JBool true);
                      ("user", json_of_SessionUser ident)]) /\
    authUserRoute later =
      Json 200 (JObj [("authenticated", JBool true);
                      ("user", json_of_SessionUser ident)]) /\
    authStatusRoute later =
      Json 200 (JObj [("authenticated", json_of_SessionUser ident);
                      ("user", json_of_SessionUser ident)]) /\
    authenticateSession uuid' later = Pass (json_of_SessionUser ident).
Proof.
  intros Hs Hu Hm _ later.
  destruct (establishedSession_user s u) as (ident & Hi & _ & Hc & Hr).
  exists ident. split; [exact Hc|]. split; [exact Hr|].
  assert (Hl : session later = Some (establishedSession s u)).
  { unfold later. by rewrite (acs_accepts hmac w req s u Hs Hu Hm). }
  unfold statusRoute, authUserRoute, authStatusRoute, authenticateSession.
  rewrite Hl. clear Hl. generalize dependent (establishedSession s u).
  intros s1 Hi. simpl. rewrite Hi. simpl.
  repeat split. by rewrite orb_true_r.
Qed.

(** When saving the session fails the handler answers 500 'Session save
    error', but the identity it has already written stays in the session
    and the pending card stays consumed: nothing is rolled back. *)
Theorem save_failure_keeps_identity (w : World) (req : Request)
    (s : Session) (u : SamlUser) :
  session req = Some s -> req_user req = Some u ->
  cardMismatch s u = false ->
  saveFails w = true ->
  (acsHandler hmac w req).2 = Send 500 (lit "Session save error") /\
  session (acsHandler hmac w req).1 = Some (establishedSession s u) /\
  is_Some (user (establishedSession s u)) /\
  truthy (pendingCardId (establishedSession s u)) = false.
Proof.
  intros Hs Hu Hm Hf.
  rewrite (acs_accepts hmac w req s u Hs Hu Hm). cbv zeta. rewrite Hf.
  repeat split.
  - destruct (establishedSession_user s u) as (ident & Hi & _). by rewrite Hi.
  - apply establishedSession_pending.
Qed.


End FlowFacts.

Lemma established_session_is_recognised_witness :
  exists ident,
    u_cardId ident = Some (lit "11111") /\
    u_role ident = lit "worker" /\
    statusRoute (nextRequest (aliceLoggedIn sampleMac) ∅ ∅ ∅) =
      Json 200 (JObj [("isAuthenticated", JBool true);
                      ("user", json_of_SessionUser ident)]) /\
    authUserRoute (nextRequest (aliceLoggedIn sampleMac) ∅ ∅ ∅) =
      Json 200 (JObj [("authenticated", JBool true);
                      ("user", json_of_SessionUser ident)]) /\
    authStatusRoute (nextRequest (aliceLoggedIn sampleMac) ∅ ∅ ∅) =
      Json 200 (JObj [("authenticated", json_of_SessionUser ident);
                      ("user", json_of_SessionUser ident)]) /\
    authenticateSession (lit "c0ffee") (nextRequest (aliceLoggedIn sampleMac) ∅ ∅ ∅)
      = Pass (json_of_SessionUser ident).
Proof.
  apply (established_session_is_recognised sampleMac quietWorld
           (req_login (userAttributes aliceProfile) freshRequest)
           (set_passport emptySession (Some (userAttributes aliceProfile)))
           (userAttributes aliceProfile) (lit "c0ffee") ∅ ∅ ∅);
    reflexivity.
Defined.

Definition failingStore : World :=
  {| env := env quietWorld; uuid := lit "c0ffee"; saveFails := true |}.

Lemma save_failure_keeps_identity_witness :
  (acsHandler sampleMac failingStore webLogin).2
    = Send 500 (lit "Session save error") /\
  session (acsHandler sampleMac failingStore webLogin).1 ≫= user
    = Some aliceIdentity.
Proof.
  destruct (save_failure_keeps_identity sampleMac failingStore webLogin
              (set_passport emptySession (Some (userAttributes aliceProfile)))
              (userAttributes aliceProfile) eq_refl eq_refl eq_refl eq_refl)
    as (Hr & Hs & _).
  split; [exact Hr|]. rewrite Hs. reflexivity.
Defined.


Section ScanFlows.

Variable hmac : jsstring -> jsstring -> jsstring.

(** What [acsHandler] makes of the request Passport's login hands over:
    the session is the regenerated one, so the assertion is accepted as
    a direct login. *)
Lemma acs_after_login (w : World) (req : Request) (s : Session) (u : SamlUser) :
  session req = Some s ->
  acsHandler hmac w (req_login u req) =
    let s1 := set_passport emptySession (Some u) in
    let req' := set_session (req_login u req) (Some (establishedSession s1 u)) in
    (req',
     if saveFails w then Send 500 (lit "Session save error")
     else Redirect
            (appendSessionToken hmac (env w) (sessionID (req_login u req))
               (getRedirectUrl (env w) req' (lit "/dashboard/worker")))).
Proof.
  intros Hs.
  assert (H1 : session (req_login u req)
               = Some (set_passport emptySession (Some u))).
  { unfold req_login, update_session. by rewrite Hs. }
  rewrite (acs_accepts hmac w _ _ u H1 eq_refl eq_refl).
  reflexivity.
Qed.

(** The role a login route records before the redirect to the identity
    provider does not reach [acsHandler]: Passport's login regenerates
    the session, the identity is stored with the role 'worker' and the
    redirect goes to the device-class base followed by /dashboard/worker,
    whatever the route was. *)
Theorem login_intent_is_lost (w : World) (req : Request) (u : SamlUser)
    (role : string) (h : gmap string jsstring) (q b : gmap string jsval) :
  saveFails w = false ->
  let callback := req_login u (nextRequest (loginIntent role req) h q b) in
  u_role <$> (session (acsHandler hmac w callback).1 ≫= user)
    = Some (lit "worker") /\
  exists url,
    (acsHandler hmac w callback).2 = Redirect url /\
    startsWith url (baseUrl (env w) (isMobileApp callback)
                    ++ lit "/dashboard/worker") = true.
Proof.
  intros Hsave callback. unfold callback.
  rewrite (acs_after_login w (nextRequest (loginIntent role req) h q b) _ u eq_refl).
  cbv zeta. rewrite Hsave. split; [reflexivity|].
  eexists. split; [reflexivity|].
  unfold getRedirectUrl. cbv zeta.
  set (r := req_login u (nextRequest (loginIntent role req) h q b)).
  rewrite (isMobileApp_established r _ u eq_refl).
  match goal with
  | |- startsWith (appendSessionToken _ _ _ ?url) _ = true =>
    replace url
      with (baseUrl (env w) (isMobileApp r) ++ lit "/dashboard/worker")
      by (unfold baseUrl; by destruct (isMobileApp r))
  end.
  apply appendSessionToken_prefix.
Qed.

(** After a valid scan, a login whose employeeNumber equals the trimmed
    cardId is accepted; no card is pending afterwards, the identity
    carries that card (as the employeeNumber of its assertion) and, the
    session save having succeeded, the next status query reports the
    identity. *)
Theorem scan_then_matching_login (w w' : World) (req : Request) (s : Session)
    (c : jsstring) (u : SamlUser)
    (h h' : gmap string jsstring) (q b q' b' : gmap string jsval) :
  session req = Some s ->
  body req !! "cardId" = Some (JStr c) ->
  trim c <> [] ->
  employeeNumber u = Some (trim c) ->
  saveFails w' = false ->
  let attempt :=
    acsHandler hmac w' (req_login u (nextRequest (cardScan w req).1 h q b)) in
  (forall p, attempt.2 <> Json 403 p) /\
  session attempt.1 ≫= pendingCardId = None /\
  exists ident,
    session attempt.1 ≫= user = Some ident /\
    u_cardId ident = Some (trim c) /\
    statusRoute (nextRequest attempt.1 h' q' b') =
      Json 200 (JObj [("isAuthenticated", JBool true);
                      ("user", json_of_SessionUser ident)]).
Proof.
  intros Hs Hb Ht He Hsave attempt. unfold attempt.
  rewrite (acs_after_login w' (nextRequest (cardScan w req).1 h q b) _ u eq_refl).
  cbv zeta. rewrite Hsave. split; [done|]. split; [reflexivity|].
  eexists. split; [reflexivity|]. split; [exact He|reflexivity].
Qed.

(** The card check is not reached through Passport's login: whatever the
    session held before the login, a card scanned for somebody else
    included, [acsHandler] never answers 403 after it; nothing is
    pending afterwards and the identity stored is that of the assertion. *)
Theorem login_skips_card_check (w : World) (req : Request) (s : Session)
    (u : SamlUser) :
  session req = Some s ->
  let attempt := acsHandler hmac w (req_login u req) in
  (forall p, attempt.2 <> Json 403 p) /\
  session attempt.1 ≫= pendingCardId = None /\
  u_nameID <$> (session attempt.1 ≫= user) = Some (nameID u) /\
  u_cardId <$> (session attempt.1 ≫= user) = Some (employeeNumber u).
Proof.
  intros Hs attempt. unfold attempt.
  rewrite (acs_after_login w req s u Hs). cbv zeta.
  split; [|done].
  intros p. simpl. by destruct (saveFails w).
Qed.

End ScanFlows.

Lemma login_intent_is_lost_witness :
  let callback :=
    req_login (userAttributes aliceProfile)
      (nextRequest (loginIntent "establishment" freshRequest) ∅ ∅ ∅) in
  session (loginIntent "establishment" freshRequest) ≫= loginRole
    = Some (lit "establishment") /\
  u_role <$> (session (acsHandler sampleMac quietWorld callback).1 ≫= user)
    = Some (lit "worker").
Proof.
  split; [reflexivity|].
  apply (login_intent_is_lost sampleMac quietWorld freshRequest
           (userAttributes aliceProfile) "establishment" ∅ ∅ ∅).
  reflexivity.
Defined.

(** An assertion whose employeeNumber is the scanned card 12345. *)
Definition carolProfile : gmap string jsstring :=
  <["nameID" := lit "carol"]> (<["employeeNumber" := lit "12345"]> ∅).

Lemma scan_then_matching_login_witness :
  let attempt :=
    acsHandler sampleMac quietWorld
      (req_login (userAttributes carolProfile)
         (nextRequest (cardScan quietWorld scanRequest).1 ∅ ∅ ∅)) in
  u_cardId <$> (session attempt.1 ≫= user) = Some (Some (lit "12345")).
Proof.
  intros attempt.
  destruct (scan_then_matching_login sampleMac quietWorld quietWorld scanRequest
              emptySession (lit " 12345 ") (userAttributes carolProfile)
              ∅ ∅ ∅ ∅ ∅ ∅ eq_refl eq_refl)
    as (_ & _ & ident & Hi & Hc & _).
  - vm_compute. discriminate.
  - reflexivity.
  - reflexivity.
  - fold attempt in Hi. rewrite Hi. simpl. rewrite Hc. reflexivity.
Defined.

Lemma login_skips_card_check_witness :
  let attempt :=
    acsHandler sampleMac quietWorld
      (req_login (userAttributes bobProfile)
         (nextRequest (cardScan quietWorld scanRequest).1 ∅ ∅ ∅)) in
  session (cardScan quietWorld scanRequest).1 ≫= pendingCardId
    = Some (lit "12345") /\
  u_cardId <$> (session attempt.1 ≫= user) = Some (Some (lit "99999")).
Proof.
  split; [reflexivity|].
  apply (login_skips_card_check sampleMac quietWorld
           (nextRequest (cardScan quietWorld scanRequest).1 ∅ ∅ ∅)
           (set_pendingCardId emptySession (Some (lit "12345")))
           (userAttributes bobProfile)).
  reflexivity.
Defined.

(** ** Answers of /card-scan and /saml/logout *)

(** A valid scan is answered according to the request: when saving the
    session fails, 500 (and the card stays pending in the session all the
    same); otherwise a JSON request gets the success envelope echoing the
    trimmed cardId and pointing to /saml/login, and any other request is
    redirected to /saml/login. *)
Theorem card_scan_answers (w : World) (req : Request) (s : Session) (c : jsstring) :
  session req = Some s ->
  body req !! "cardId" = Some (JStr c) ->
  trim c <> [] ->
  (cardScan w req).2 =
    (if saveFails w then
       Json 500 (errorResponse3 (uuid w) ERROR_CODES.INTERNAL_ERROR
                   "Failed to save session" "session")
     else if jsonRequest req then
       Json 200 (successResponse (uuid w)
                   (JObj [("message", JStr (lit "Card scan received. Redirecting to SAML login."));
                          ("cardId", JStr (trim c));
                          ("redirectTo", JStr (lit "/saml/login"))])
                   JUndefined)
     else Redirect (lit "/saml/login")) /\
  session (cardScan w req).1 ≫= pendingCardId = Some (trim c).
Proof.
  intros Hs Hb Ht. split.
  - unfold cardScan. rewrite Hb. simpl. rewrite (validCardId c Ht), Hs.
    assert (Hj : forall r, headers r = headers req -> jsonRequest r = jsonRequest req).
    { intros r Hr. unfold jsonRequest. by rewrite Hr. }
    destruct (bool_decide (is_Some (samlUser s)) && bool_decide (is_Some (req_user req)));
      destruct (saveFails w); try reflexivity.
    + rewrite Hj; [by destruct (jsonRequest req)|].
      unfold update_session, req_logout, clearSamlSession. by rewrite Hs.
    + rewrite Hj; [by destruct (jsonRequest req)|].
      unfold update_session. by rewrite Hs.
  - by rewrite (cardScan_session w req s c Hs Hb Ht).
Qed.

Lemma card_scan_answers_witness :
  (cardScan failingStore scanRequest).2 =
    Json 500 (errorResponse3 (lit "c0ffee") ERROR_CODES.INTERNAL_ERROR
                "Failed to save session" "session") /\
  session (cardScan failingStore scanRequest).1 ≫= pendingCardId
    = Some (lit "12345").
Proof.
  apply (card_scan_answers failingStore scanRequest emptySession (lit " 12345 ")).
  - reflexivity.
  - reflexivity.
  - vm_compute. discriminate.
Defined.

(** When the SAML guard lets a logout through (the request has a user
    and the session a samlUser), the session is destroyed and the user
    removed; a JSON request gets the success envelope, any other a
    redirect to /login; the next status query reports not
    authenticated. *)
Theorem logout_destroys_session (w : World) (req : Request) (s : Session)
    (su u : SamlUser) (h : gmap string jsstring) (q b : gmap string jsval) :
  session req = Some s ->
  samlUser s = Some su ->
  req_user req = Some u ->
  session (logoutRoute w req).1 = None /\
  req_user (logoutRoute w req).1 = None /\
  (logoutRoute w req).2 =
    (if jsonRequest req then
       Json 200 (successResponse (uuid w)
                   (JObj [("message", JStr (lit "Logout successful"));
                          ("redirectTo", JStr (lit "/login"))])
                   JUndefined)
     else Redirect (lit "/login")) /\
  statusRoute (nextRequest (logoutRoute w req).1 h q b)
    = Json 200 (JObj [("isAuthenticated", JBool false)]).
Proof.
  intros Hs Hsu Hu. unfold logoutRoute, requireSamlAuth.
  rewrite Hs, Hu, Hsu.
  assert (Hj : jsonRequest (set_session (req_logout (clearSamlSession req)) None)
               = jsonRequest req).
  { unfold jsonRequest, req_logout, clearSamlSession. by rewrite Hs. }
  rewrite Hj. by destruct (jsonRequest req).
Qed.

(** A session as the logout guard expects it (with a samlUser). *)
Definition samlUserSession : Session :=
  {| samlUser := Some (userAttributes aliceProfile);
     pendingCardId := None;
     passport := Some (userAttributes aliceProfile);
     user := None; loginRole := None; mobileFlag := false |}.

Definition samlUserRequest : Request :=
  {| headers := jsonHeaders; query := ∅; body := ∅;
     session := Some samlUserSession;
     req_user := Some (userAttributes aliceProfile);
     sessionID := lit "sid"; deviceType := None |}.

Lemma logout_destroys_session_witness :
  session (logoutRoute quietWorld samlUserRequest).1 = None /\
  req_user (logoutRoute quietWorld samlUserRequest).1 = None /\
  (logoutRoute quietWorld samlUserRequest).2 =
    Json 200 (successResponse (lit "c0ffee")
                (JObj [("message", JStr (lit "Logout successful"));
                       ("redirectTo", JStr (lit "/login"))])
                JUndefined) /\
  statusRoute (nextRequest (logoutRoute quietWorld samlUserRequest).1 ∅ ∅ ∅)
    = Json 200 (JObj [("isAuthenticated", JBool false)]).
Proof.
  apply (logout_destroys_session quietWorld samlUserRequest samlUserSession
           (userAttributes aliceProfile) (userAttributes aliceProfile) ∅ ∅ ∅);
    reflexivity.
Defined.

(** ** routes/auth.js *)

(** GET /api/auth/status never answers with a boolean: its authenticated
    field is the identity object itself when the session holds one, and
    undefined (with user null) when it does not. *)
Theorem auth_status_is_not_boolean (req : Request) :
  exists payload,
    authStatusRoute req = Json 200 payload /\
    (forall flag, field "authenticated" payload <> JBool flag) /\
    match session req ≫= user with
    | Some u => field "authenticated" payload = json_of_SessionUser u /\
                field "user" payload = json_of_SessionUser u
    | None => field "authenticated" payload = JUndefined /\
              field "user" payload = JNull
    end.
Proof.
  unfold authStatusRoute. eexists. split; [reflexivity|].
  destruct (session req) as [s|]; simpl; [|by split].
  destruct (user s); simpl; by split.
Qed.

(** ** The GET shim of the assertion consumer *)

(** With a non-empty SAMLResponse in the query string the shim lets the
    request go on as a POST whose body carries that SAMLResponse (and the
    query's RelayState when it has one), every other body field, the
    session and the headers being as they were; without one it answers
    400. *)
Theorem acs_proxy_forwards_assertion (req : Request) :
  (forall v, query req !! "SAMLResponse" = Some v -> js_truthy v = true ->
     exists req',
       acsProxy req = inl (req', lit "POST") /\
       body req' !! "SAMLResponse" = Some v /\
       body req' !! "RelayState" =
         (match query req !! "RelayState" with
          | Some r => if js_truthy r then Some r else body req !! "RelayState"
          | None => body req !! "RelayState"
          end) /\
       (forall k, k <> "SAMLResponse" -> k <> "RelayState" ->
                  body req' !! k = body req !! k) /\
       session req' = session req /\ headers req' = headers req) /\
  (js_truthy (default JUndefined (query req !! "SAMLResponse")) = false ->
   acsProxy req = inr (Send 400 (lit "SAMLResponse missing in GET request"))).
Proof.
  split.
  - intros v Hq Hv. unfold acsProxy. rewrite Hq. simpl. rewrite Hv.
    eexists. split; [reflexivity|]. simpl.
    destruct (query req !! "RelayState") as [r|]; simpl;
      [destruct (js_truthy r)|]; repeat split;
      try (intros k H1 H2); by simplify_map_eq.
  - intros Hf. unfold acsProxy. by rewrite Hf.
Qed.

Definition getAssertionRequest : Request :=
  {| headers := ∅;
     query := <["SAMLResponse" := JStr (lit "PHNhbWw+")]>
              (<["RelayState" := JStr (lit "state")]> ∅);
     body := <["extra" := JStr (lit "kept")]> ∅;
     session := Some emptySession; req_user := None;
     sessionID := lit "sid"; deviceType := None |}.

Lemma acs_proxy_forwards_assertion_witness :
  (exists req',
     acsProxy getAssertionRequest = inl (req', lit "POST") /\
     body req' !! "SAMLResponse" = Some (JStr (lit "PHNhbWw+"))) /\
  acsProxy bareRequest = inr (Send 400 (lit "SAMLResponse missing in GET request")).
Proof.
  split.
  - destruct (proj1 (acs_proxy_forwards_assertion getAssertionRequest)
                (JStr (lit "PHNhbWw+")) eq_refl eq_refl)
      as (req' & H1 & H2 & _).
    exists req'. by split.
  - apply (proj2 (acs_proxy_forwards_assertion bareRequest)). reflexivity.
Defined.

(** ** server.js: CORS *)

Lemma stripTrailingSlash_snoc (a : jsstring) :
  stripTrailingSlash (a ++ lit "/") = a.
Proof.
  unfold stripTrailingSlash. simpl. rewrite reverse_snoc.
  apply reverse_involutive.
Qed.

Lemma allowedOrigins_truthy (frontend : jsstring) (client : option jsstring)
    (a : jsstring) :
  a ∈ allowedOrigins frontend client -> a <> [].
Proof.
  unfold allowedOrigins. rewrite list_elem_of_omap.
  intros (o & _ & Ho) ->. by destruct o as [[|]|].
Qed.

(** The CORS origin function never rejects: whatever the Origin header
    and the configured URLs are, the verdict passed to the callback is
    'allowed'. *)
Theorem cors_never_rejects (env_FRONTEND_URL env_CLIENT_URL origin : option jsstring) :
  (corsOrigin env_FRONTEND_URL env_CLIENT_URL origin).2 = true.
Proof.
  unfold corsOrigin. destruct origin as [[|c o]|]; try reflexivity.
  cbv zeta. destruct (existsb _ _); [reflexivity|].
  by destruct (_ || _).
Qed.

(** The whitelist is compared modulo one trailing slash: an Origin that
    equals a listed origin once a final '/' is removed from both is
    recognised as whitelisted. *)
Theorem cors_whitelist_modulo_slash
    (env_FRONTEND_URL env_CLIENT_URL : option jsstring) (origin a : jsstring) :
  a ∈ allowedOrigins (FRONTEND_URL env_FRONTEND_URL) env_CLIENT_URL ->
  origin <> [] ->
  stripTrailingSlash origin = stripTrailingSlash a ->
  (corsOrigin env_FRONTEND_URL env_CLIENT_URL (Some origin)).1 = Whitelisted.
Proof.
  intros Ha Ho Heq. unfold corsOrigin.
  destruct origin as [|c o]; [done|]. cbv zeta.
  assert (He : existsb
            (fun allowed : jsstring =>
               match allowed with
               | [] => false
               | _ :: _ => bool_decide (stripTrailingSlash allowed
                                        = stripTrailingSlash (c :: o))
               end)
            (allowedOrigins (FRONTEND_URL env_FRONTEND_URL) env_CLIENT_URL) = true).
  { apply existsb_exists. exists a. split; [by apply list_elem_of_In|].
    pose proof (allowedOrigins_truthy _ _ _ Ha) as Hne.
    destruct a; [done|]. by apply bool_decide_eq_true_2. }
  by rewrite He.
Qed.

Lemma cors_whitelist_modulo_slash_witness :
  (corsOrigin None (Some (lit "https://app.example.com"))
     (Some (lit "https://app.example.com/"))).1 = Whitelisted.
Proof.
  apply (cors_whitelist_modulo_slash None (Some (lit "https://app.example.com"))
           (lit "https://app.example.com/") (lit "https://app.example.com")).
  - vm_compute. do 2 right. left.
  - discriminate.
  - reflexivity.
Defined.

(** ** server.js: the session cookie *)

(** The session cookie is SameSite=None exactly when it is Secure, which
    is exactly when the process runs in production (NODE_ENV) or on Render
    (RENDER or ON_RENDER); it is always HttpOnly and lives 24 hours. *)
Theorem cookie_none_iff_secure (NODE_ENV RENDER ON_RENDER : option jsstring) :
  let c := getSessionCookieConfig NODE_ENV RENDER ON_RENDER in
  (ck_sameSite c = lit "none" <-> ck_secure c = true) /\
  (ck_sameSite c = lit "lax" <-> ck_secure c = false) /\
  (ck_secure c = true <->
     NODE_ENV = Some (lit "production") \/ RENDER = Some (lit "true")
     \/ ON_RENDER = Some (lit "true")) /\
  ck_httpOnly c = true /\
  ck_maxAge c = 86400000%Z.
Proof.
  unfold getSessionCookieConfig, env_is.
  repeat case_bool_decide; simpl; repeat split; try done; try tauto;
    try (intros [?|[?|?]]; done).
Qed.

(** The cookie settings that GET /api/auth/session-info reports are
    computed from NODE_ENV alone: its secure flag agrees with the cookie
    really configured exactly when NODE_ENV is 'production' or neither
    RENDER nor ON_RENDER is 'true'. *)
Theorem session_info_agrees_off_render (NODE_ENV RENDER ON_RENDER : option jsstring) :
  field "secure" (sessionInfoCookieSettings NODE_ENV)
    = JBool (ck_secure (getSessionCookieConfig NODE_ENV RENDER ON_RENDER))
  <->
  (NODE_ENV = Some (lit "production")
   \/ (RENDER <> Some (lit "true") /\ ON_RENDER <> Some (lit "true"))).
Proof.
  unfold sessionInfoCookieSettings, getSessionCookieConfig, env_is. simpl.
  repeat case_bool_decide; simpl; split; try done; try tauto;
    try (intros [?|[? ?]]; done).
Qed.

(** ** The injected cookie, as /api/auth/user sees it *)

Lemma trimStart_app_keep (l r : jsstring) (a : N) :
  isWhiteSpace a = false -> trimStart (l ++ a :: r) = trimStart l ++ a :: r.
Proof.
  intros Ha. induction l as [|d l IH]; simpl.
  - by rewrite Ha.
  - by destruct (isWhiteSpace d).
Qed.

Lemma trimEnd_app_keep (p t : jsstring) (a : N) :
  isWhiteSpace a = false ->
  trimEnd ((p ++ [a]) ++ t) = (p ++ [a]) ++ trimEnd t.
Proof.
  intros Ha. unfold trimEnd.
  rewrite reverse_app, reverse_snoc, (trimStart_app_keep _ _ _ Ha).
  by rewrite reverse_app, reverse_cons, reverse_involutive.
Qed.

Lemma splitOn_absent (sep : N) (s : jsstring) :
  sep ∉ s -> splitOn sep s = [s].
Proof.
  induction s as [|c s IH]; [done|]. intros Hn.
  apply not_elem_of_cons in Hn as [Hc Hs]. simpl.
  destruct (N.eqb_spec c sep) as [->|_]; [done|]. by rewrite (IH Hs).
Qed.

Lemma splitOn_head (sep : N) (p x : jsstring) :
  sep ∉ p -> head (splitOn sep (p ++ sep :: x)) = Some p.
Proof.
  induction p as [|c p IH]; intros Hn; simpl.
  - by rewrite N.eqb_refl.
  - apply not_elem_of_cons in Hn as [Hc Hp].
    destruct (N.eqb_spec c sep) as [->|_]; [done|].
    specialize (IH Hp). destruct (splitOn sep (p ++ sep :: x)); [done|].
    simpl in IH. by injection IH as ->.
Qed.

Lemma trim_keep (a : N) (n value : jsstring) :
  isWhiteSpace a = false ->
  trim ((a :: n) ++ 61 :: value) = (a :: n) ++ 61 :: trimEnd value.
Proof.
  intros Ha. unfold trim.
  assert (Hs : trimStart ((a :: n) ++ 61 :: value) = (a :: n) ++ 61 :: value)
    by (simpl; by rewrite Ha).
  rewrite Hs.
  replace ((a :: n) ++ 61 :: value) with (((a :: n) ++ [61]) ++ value)
    by (by rewrite <- app_assoc).
  rewrite trimEnd_app_keep by reflexivity. by rewrite <- app_assoc.
Qed.

(** A cookie header holding one name=value pair names that one cookie. *)
Lemma cookieNames_single (a : N) (n value : jsstring) :
  isWhiteSpace a = false ->
  59 ∉ (a :: n) ++ 61 :: value ->
  61 ∉ a :: n ->
  cookieNames (Some ((a :: n) ++ 61 :: value)) = [a :: n].
Proof.
  intros Ha Hsemi Heq.
  change (cookieNames (Some ((a :: n) ++ 61 :: value)))
    with ((fun c => default [] (head (splitOn 61 (trim c))))
            <$> splitOn 59 ((a :: n) ++ 61 :: value)).
  rewrite (splitOn_absent 59 _ Hsemi).
  change ([default [] (head (splitOn 61 (trim ((a :: n) ++ 61 :: value))))]
          = [a :: n]).
  by rewrite (trim_keep a n value Ha), (splitOn_head 61 _ _ Heq).
Qed.

(** A request that arrives without a cookie and with a token in
    X-Session-Token (one without a semicolon) leaves the session-token
    middleware with a cookie header naming exactly one cookie, saml.sid:
    that is what the debug block of a 401 from /api/auth/user shows. *)
Theorem injected_cookie_is_saml_sid (req : Request) (token : jsstring) :
  truthy (headers req !! "cookie") = false ->
  headers req !! "x-session-token" = Some token ->
  token <> [] ->
  59 ∉ token ->
  session req ≫= user = None ->
  exists payload,
    authUserRoute (sessionTokenMiddleware req) = Json 401 payload /\
    field "hasCookie" (field "debug" payload) = JBool true /\
    field "cookieNames" (field "debug" payload) = JArr [JStr (lit "saml.sid")].
Proof.
  intros Hc Ht Hne Hsemi Hu.
  assert (Hh : headers (sessionTokenMiddleware req) !! "cookie"
               = Some (lit "saml.sid" ++ 61 :: token)).
  { unfold sessionTokenMiddleware. rewrite Hc, Ht.
    destruct token; [done|]. simpl. by rewrite lookup_insert_eq. }
  assert (Hs : session (sessionTokenMiddleware req) = session req).
  { unfold sessionTokenMiddleware. rewrite Ht.
    by destruct (negb _ && truthy _). }
  assert (Hn : cookieNames (Some (lit "saml.sid" ++ 61 :: token)) = [lit "saml.sid"]).
  { apply (cookieNames_single 115 (lit "aml.sid") token); [reflexivity| |].
    - intros H. apply elem_of_app in H as [H|H].
      + apply list_elem_of_In in H. vm_compute in H. intuition discriminate.
      + apply elem_of_cons in H as [H|H]; [discriminate|done].
    - intros H. apply list_elem_of_In in H. vm_compute in H. intuition discriminate. }
  unfold authUserRoute. rewrite Hs, Hu, Hh, Hn. eexists.
  split; [reflexivity|]. by split.
Qed.

Lemma injected_cookie_is_saml_sid_witness :
  exists payload,
    authUserRoute (sessionTokenMiddleware headerTokenRequest) = Json 401 payload /\
    field "hasCookie" (field "debug" payload) = JBool true /\
    field "cookieNames" (field "debug" payload) = JArr [JStr (lit "saml.sid")].
Proof.
  apply (injected_cookie_is_saml_sid headerTokenRequest (lit "s:abc.mac")).
  - reflexivity.
  - reflexivity.
  - discriminate.
  - intros H. apply list_elem_of_In in H. vm_compute in H. intuition discriminate.
  - reflexivity.
Defined.

(** ** config/saml.js *)

(** The environment of config/saml.js: the SAML variables, and the
    contents of the three key files next to the sources when they exist
    and can be read. *)
Record SamlEnv := {
  SAML_ENTITY_ID : option jsstring;
  SAML_ACS_URL : option jsstring;
  SAML_LOGOUT_URL : option jsstring;
  SAML_ENTRY_POINT : option jsstring;
  SAML_ISSUER : option jsstring;
  SAML_IDP_CERT : option jsstring;
  SAML_SP_PRIVATE_KEY : option jsstring;
  SAML_SP_CERT : option jsstring;
  idpCertFile : option jsstring;
  spKeyFile : option jsstring;
  spCertFile : option jsstring
}.

(** The properties of [samlConfig] that [validateSamlConfig] and
    GET /saml/config read; [None] is null. *)
Record SamlConfig := {
  entityId : jsstring;
  callbackUrl : jsstring;
  logoutUrl : jsstring;
  entryPoint : jsstring;
  issuer : jsstring;
  cert : option jsstring;
  privateKey : option jsstring;
  publicCert : option jsstring
}.

Definition samlConfig (e : SamlEnv) : SamlConfig :=
  {| entityId := or_default (SAML_ENTITY_ID e)
       (lit "https://workerconnectbackend.onrender.com/saml/metadata");
     callbackUrl := or_default (SAML_ACS_URL e)
       (lit "https://workerconnectbackend.onrender.com/saml/acs");
     logoutUrl := or_default (SAML_LOGOUT_URL e)
       (lit "https://workerconnectbackend.onrender.com/saml/logout");
     entryPoint := or_default (SAML_ENTRY_POINT e)
       (lit "https://idp.eu.safenetid.com/auth/realms/2UUO14PJ1G-STA/protocol/saml");
     issuer := or_default (SAML_ISSUER e)
       (lit "https://idp.eu.safenetid.com/auth/realms/2UUO14PJ1G-STA");
     cert := js_or (SAML_IDP_CERT e) (idpCertFile e);
     privateKey := js_or (SAML_SP_PRIVATE_KEY e) (spKeyFile e);
     publicCert := js_or (SAML_SP_CERT e) (spCertFile e) |}.

(** [!value || value.includes('placeholder')] *)
Definition unconfigured (value : option jsstring) (placeholder : string) : bool :=
  negb (truthy value) || includes (default [] value) (lit placeholder).

Definition validateSamlConfig (c : SamlConfig) : bool * list jsstring :=
  let errors :=
    (if unconfigured (Some (entryPoint c)) "your-tenant"
     then [lit "SAML_ENTRY_POINT is not configured"] else [])
    ++ (if unconfigured (Some (issuer c)) "your-tenant"
        then [lit "SAML_ISSUER is not configured"] else [])
    ++ (if unconfigured (cert c) "YOUR_STA_CERTIFICATE"
        then [lit "SAML_IDP_CERT is not configured"] else [])
    ++ (if unconfigured (Some (entityId c)) "yourdomain"
        then [lit "SAML_ENTITY_ID is not configured"] else []) in
  (bool_decide (length errors = 0%nat), errors).

(** GET /saml/config *)
Definition configRoute (NODE_ENV : option jsstring) (uuid : jsstring)
    (c : SamlConfig) : Response :=
  if env_is NODE_ENV "production" then
    Json 403 (errorResponse3 uuid ERROR_CODES.AUTHORIZATION_ERROR
                "Configuration endpoint not available in production" "config")
  else
    let validation := validateSamlConfig c in
    Json 200 (successResponse uuid
      (JObj [("configured", JBool validation.1);
             ("errors", JArr (JStr <$> validation.2));
             ("config",
              JObj [("entityId", JStr (entityId c));
                    ("callbackUrl", JStr (callbackUrl c));
                    ("logoutUrl", JStr (logoutUrl c));
                    ("entryPoint", JStr (if truthy (Some (entryPoint c))
                                         then lit "***configured***"
                                         else lit "not configured"));
                    ("issuer", JStr (if truthy (Some (issuer c))
                                     then lit "***configured***"
                                     else lit "not configured"));
                    ("hasCert", JBool (truthy (cert c)
                                       && negb (includes (default [] (cert c))
                                                  (lit "YOUR_STA_CERTIFICATE"))));
                    ("hasPrivateKey", JBool (truthy (privateKey c)));
                    ("hasPublicCert", JBool (truthy (publicCert c)))])])
      JUndefined).

(** With SAML_ENTRY_POINT, SAML_ISSUER and SAML_ENTITY_ID unset (or
    empty) the built-in defaults stand in and are never reported: the only
    error validation can then report is the missing or placeholder IdP
    certificate, and the configuration is valid exactly when a certificate
    without the placeholder is there. The SP key and certificate play no
    part. *)
Theorem defaults_pass_validation (e : SamlEnv) :
  truthy (SAML_ENTRY_POINT e) = false ->
  truthy (SAML_ISSUER e) = false ->
  truthy (SAML_ENTITY_ID e) = false ->
  let certOk :=
    truthy (cert (samlConfig e))
    && negb (includes (default [] (cert (samlConfig e)))
               (lit "YOUR_STA_CERTIFICATE")) in
  validateSamlConfig (samlConfig e) =
    (certOk, if certOk then [] else [lit "SAML_IDP_CERT is not configured"]).
Proof.
  intros H1 H2 H3. unfold validateSamlConfig, samlConfig.
  cbn [entityId entryPoint issuer cert].
  assert (Hd : forall v d, truthy v = false -> or_default v d = d).
  { intros v d Hv. by destruct v as [[|]|]. }
  rewrite !Hd by assumption.
  assert (He : unconfigured
            (Some (lit "https://idp.eu.safenetid.com/auth/realms/2UUO14PJ1G-STA/protocol/saml"))
            "your-tenant" = false) by (vm_compute; reflexivity).
  assert (Hi : unconfigured
            (Some (lit "https://idp.eu.safenetid.com/auth/realms/2UUO14PJ1G-STA"))
            "your-tenant" = false) by (vm_compute; reflexivity).
  assert (Hn : unconfigured
            (Some (lit "https://workerconnectbackend.onrender.com/saml/metadata"))
            "yourdomain" = false) by (vm_compute; reflexivity).
  rewrite He, Hi, Hn. unfold unconfigured.
  destruct (truthy (js_or (SAML_IDP_CERT e) (idpCertFile e))); simpl;
    [destruct (includes _ _)|]; reflexivity.
Qed.

Definition emptySamlEnv : SamlEnv :=
  {| SAML_ENTITY_ID := None; SAML_ACS_URL := None; SAML_LOGOUT_URL := None;
     SAML_ENTRY_POINT := None; SAML_ISSUER := None; SAML_IDP_CERT := None;
     SAML_SP_PRIVATE_KEY := None; SAML_SP_CERT := None;
     idpCertFile := None; spKeyFile := None; spCertFile := None |}.

Lemma defaults_pass_validation_witness :
  validateSamlConfig (samlConfig emptySamlEnv)
    = (false, [lit "SAML_IDP_CERT is not configured"]).
Proof.
  apply (defaults_pass_validation emptySamlEnv); reflexivity.
Defined.

(** What GET /saml/config lets out: in production nothing (403 for every
    configuration); elsewhere the answer depends on the certificate, the
    keys, the entry point and the issuer only through whether each is
    there (and, for the certificate, free of its placeholder), never
    through their text, as long as validation gives the same verdict. *)
Theorem config_route_masks_secrets (NODE_ENV : option jsstring) (uuid : jsstring)
    (c c' : SamlConfig) :
  (NODE_ENV = Some (lit "production") ->
   configRoute NODE_ENV uuid c =
     Json 403 (errorResponse3 uuid ERROR_CODES.AUTHORIZATION_ERROR
                 "Configuration endpoint not available in production" "config")) /\
  (entityId c = entityId c' -> callbackUrl c = callbackUrl c' ->
   logoutUrl c = logoutUrl c' ->
   unconfigured (Some (entryPoint c)) "your-tenant"
     = unconfigured (Some (entryPoint c')) "your-tenant" ->
   truthy (Some (entryPoint c)) = truthy (Some (entryPoint c')) ->
   unconfigured (Some (issuer c)) "your-tenant"
     = unconfigured (Some (issuer c')) "your-tenant" ->
   truthy (Some (issuer c)) = truthy (Some (issuer c')) ->
   unconfigured (cert c) "YOUR_STA_CERTIFICATE"
     = unconfigured (cert c') "YOUR_STA_CERTIFICATE" ->
   truthy (privateKey c) = truthy (privateKey c') ->
   truthy (publicCert c) = truthy (publicCert c') ->
   configRoute NODE_ENV uuid c = configRoute NODE_ENV uuid c').
Proof.
  split.
  - intros ->. reflexivity.
  - intros H1 H2 H3 H4 H5 H6 H7 H8 H9 H10.
    unfold configRoute, validateSamlConfig.
    destruct (env_is NODE_ENV "production"); [reflexivity|].
    cbv zeta. rewrite H1, H2, H3, H4, H5, H6, H7, H8, H9, H10.
    assert (Hc : truthy (cert c) && negb (includes (default [] (cert c)) (lit "YOUR_STA_CERTIFICATE"))
                 = truthy (cert c') && negb (includes (default [] (cert c')) (lit "YOUR_STA_CERTIFICATE"))).
    { unfold unconfigured in H8.
      destruct (truthy (cert c)), (truthy (cert c')),
        (includes (default [] (cert c)) (lit "YOUR_STA_CERTIFICATE")),
        (includes (default [] (cert c')) (lit "YOUR_STA_CERTIFICATE"));
        done. }
    by rewrite Hc.
Qed.

Definition keyedConfig (key certText : string) : SamlConfig :=
  {| entityId := lit "https://sp.example.com/saml/metadata";
     callbackUrl := lit "https://sp.example.com/saml/acs";
     logoutUrl := lit "https://sp.example.com/saml/logout";
     entryPoint := lit "https://idp.example.com/sso";
     issuer := lit "https://idp.example.com";
     cert := Some (lit certText);
     privateKey := Some (lit key);
     publicCert := None |}.

Lemma config_route_masks_secrets_witness :
  configRoute (Some (lit "production")) (lit "c0ffee") (keyedConfig "k1" "MIIC")
    = Json 403 (errorResponse3 (lit "c0ffee") ERROR_CODES.AUTHORIZATION_ERROR
                  "Configuration endpoint not available in production" "config") /\
  configRoute None (lit "c0ffee") (keyedConfig "k1" "MIIC")
    = configRoute None (lit "c0ffee") (keyedConfig "another key" "MIID").
Proof.
  split.
  - apply (proj1 (config_route_masks_secrets (Some (lit "production")) (lit "c0ffee")
                    (keyedConfig "k1" "MIIC") (keyedConfig "k1" "MIIC"))).
    reflexivity.
  - apply (proj2 (config_route_masks_secrets None (lit "c0ffee")
                    (keyedConfig "k1" "MIIC") (keyedConfig "another key" "MIID")));
      reflexivity.
Defined.

(** ** utils/validation.js *)

(** [input.replace(/<[^>]*>/g, '')]: a match starts at a '<' that has a
    '>' somewhere after it and runs to the first such '>'; [inTag] says
    that the scan is inside a match. *)
Fixpoint stripTags (inTag : bool) (s : jsstring) : jsstring :=
  match s with
  | [] => []
  | c :: s' =>
    if inTag then
      if c =? 62 then stripTags false s' else stripTags true s'
    else if (c =? 60) && existsb (N.eqb 62) s' then stripTags true s'
    else c :: stripTags false s'
  end.

Definition sanitizeInput (input : jsval) : jsval :=
  match input with
  | JStr s => JStr (trim (stripTags false s))
  | _ => input
  end.

(** The names every plain object inherits from [Object.prototype]. *)
Definition objectPrototype : list string :=
  ["constructor"; "__defineGetter__"; "__defineSetter__"; "hasOwnProperty";
   "__lookupGetter__"; "__lookupSetter__"; "isPrototypeOf";
   "propertyIsEnumerable"; "toString"; "valueOf"; "__proto__";
   "toLocaleString"].

(** [data[field]] on a plain object, such as the parsed JSON object of a
    request body: the object's own property when it has one; else, for a
    name of [Object.prototype], the inherited member (a function, or the
    prototype itself for [__proto__]); else undefined. *)
Inductive Member :=
| Own (v : jsval)
| Inherited
| Missing.

Definition member (data : gmap string jsval) (field : string) : Member :=
  match data !! field with
  | Some v => Own v
  | None => if bool_decide (field ∈ objectPrototype) then Inherited else Missing
  end.

(** [!data[field] || (typeof data[field] === 'string' && !data[field].trim())];
    an inherited member is truthy and not a string. *)
Definition blankField (data : gmap string jsval) (field : string) : bool :=
  match member data field with
  | Own v =>
    negb (js_truthy v) ||
    match v with
    | JStr s => match trim s with [] => true | _ => false end
    | _ => false
    end
  | Inherited => false
  | Missing => true
  end.

Definition validateRequiredFields (data : gmap string jsval)
    (requiredFields : list string) : list string :=
  List.filter (blankField data) requiredFields.

(** A string holds a tag when some '<' in it has a '>' after it. *)
Fixpoint hasTag (s : jsstring) : bool :=
  match s with
  | [] => false
  | c :: s' => ((c =? 60) && existsb (N.eqb 62) s') || hasTag s'
  end.

Lemma stripTags_keeps_gt (b : bool) (s : jsstring) :
  existsb (N.eqb 62) (stripTags b s) = true -> existsb (N.eqb 62) s = true.
Proof.
  revert b. induction s as [|c s IH]; intros b; [by destruct b|].
  cbn [stripTags existsb]. destruct b.
  - destruct (c =? 62); intros H; apply IH in H; rewrite H; apply orb_true_r.
  - destruct ((c =? 60) && existsb (N.eqb 62) s) eqn:Hc.
    + intros H. apply IH in H. rewrite H. apply orb_true_r.
    + cbn [existsb]. destruct (62 =? c); [done|]. apply IH.
Qed.

Lemma stripTags_no_tag (b : bool) (s : jsstring) : hasTag (stripTags b s) = false.
Proof.
  revert b. induction s as [|c s IH]; intros b; [by destruct b|].
  cbn [stripTags]. destruct b.
  - by destruct (c =? 62).
  - destruct ((c =? 60) && existsb (N.eqb 62) s) eqn:Hc; [apply IH|].
    cbn [hasTag]. rewrite IH, orb_false_r.
    destruct (c =? 60); [|done]. rewrite andb_true_l in *.
    destruct (existsb (N.eqb 62) (stripTags false s)) eqn:He; [|done].
    apply stripTags_keeps_gt in He. congruence.
Qed.

Lemma stripTags_id (s : jsstring) : hasTag s = false -> stripTags false s = s.
Proof.
  induction s as [|c s IH]; [done|]. cbn [hasTag stripTags]. intros H.
  apply orb_false_iff in H as [H1 H2]. by rewrite H1, (IH H2).
Qed.

Lemma hasTag_app_r (p t : jsstring) : hasTag (p ++ t) = false -> hasTag t = false.
Proof.
  induction p as [|c p IH]; [done|]. cbn [hasTag app]. intros H.
  apply orb_false_iff in H as [_ H]. by apply IH.
Qed.

Lemma hasTag_app_l (p t : jsstring) : hasTag (p ++ t) = false -> hasTag p = false.
Proof.
  induction p as [|c p IH]; [done|]. cbn [hasTag app]. intros H.
  apply orb_false_iff in H as [H1 H2]. rewrite (IH H2), orb_false_r.
  destruct (c =? 60); [|done]. rewrite andb_true_l in *.
  rewrite existsb_app in H1. by apply orb_false_iff in H1 as [-> _].
Qed.

Lemma trimStart_suffix (s : jsstring) : exists p, s = p ++ trimStart s.
Proof.
  induction s as [|c s [p IH]]; [by exists []|]. simpl.
  destruct (isWhiteSpace c); [|by exists []].
  exists (c :: p). simpl. by rewrite <- IH.
Qed.

Lemma trimEnd_prefix (s : jsstring) : exists r, s = trimEnd s ++ r.
Proof.
  unfold trimEnd. destruct (trimStart_suffix (reverse s)) as [p Hp].
  exists (reverse p).
  rewrite <- reverse_app, <- Hp. by rewrite reverse_involutive.
Qed.

Lemma hasTag_trim (s : jsstring) : hasTag s = false -> hasTag (trim s) = false.
Proof.
  intros H. unfold trim.
  destruct (trimStart_suffix s) as [p Hp]. rewrite Hp in H.
  apply hasTag_app_r in H.
  destruct (trimEnd_prefix (trimStart s)) as [r Hr]. rewrite Hr in H.
  by apply hasTag_app_l in H.
Qed.

Lemma trim_idempotent (s : jsstring) : trim (trim s) = trim s.
Proof.
  assert (Hs : trimStart (trim s) = trim s).
  { pose proof (trim_head s) as Hh. destruct (trim s) as [|a t]; [done|].
    simpl. by rewrite (Hh a eq_refl). }
  unfold trim at 1. rewrite Hs. unfold trimEnd.
  assert (He : trimStart (reverse (trim s)) = reverse (trim s)).
  { pose proof (trim_last s) as Hl. rewrite <- head_reverse in Hl.
    destruct (reverse (trim s)) as [|a t]; [done|].
    simpl. by rewrite (Hl a eq_refl). }
  rewrite He. apply reverse_involutive.
Qed.

Lemma hasTag_spec (s : jsstring) :
  hasTag s = false -> forall a b, s = a ++ 60 :: b -> 62 ∉ b.
Proof.
  intros H a b ->. apply hasTag_app_r in H. cbn [hasTag] in H.
  apply orb_false_iff in H as [H _]. rewrite N.eqb_refl, andb_true_l in H.
  intros Hin.
  assert (existsb (N.eqb 62) b = true).
  { apply existsb_exists. exists 62. split; [by apply list_elem_of_In|].
    apply N.eqb_refl. }
  congruence.
Qed.

(** [sanitizeInput] leaves no tag behind, that is no '<' with a '>'
    anywhere after it, and no whitespace at either end; sanitizing a
    second time changes nothing. Values that are not strings come back
    untouched. *)
Theorem sanitizeInput_idempotent (input : jsval) :
  sanitizeInput (sanitizeInput input) = sanitizeInput input /\
  (typeof_string input = false -> sanitizeInput input = input) /\
  (forall s, sanitizeInput input = JStr s ->
     (forall a b, s = a ++ 60 :: b -> 62 ∉ b) /\
     (forall c, head s = Some c -> isWhiteSpace c = false) /\
     (forall c, last s = Some c -> isWhiteSpace c = false)).
Proof.
  split; [|split].
  - destruct input as [| | | |s| |]; try reflexivity. simpl.
    assert (Hn : hasTag (trim (stripTags false s)) = false)
      by apply hasTag_trim, stripTags_no_tag.
    by rewrite (stripTags_id _ Hn), trim_idempotent.
  - by destruct input.
  - intros s Hs.
    assert (Hn : hasTag s = false /\ exists t, s = trim t).
    { destruct input; try discriminate Hs. injection Hs as <-.
      split; [apply hasTag_trim, stripTags_no_tag|by eexists]. }
    destruct Hn as [Hn [t ->]]. split; [by apply hasTag_spec|].
    split; [apply trim_head|apply trim_last].
Qed.

Example sanitize_nested :
  sanitizeInput (JStr (lit "  <b>bold</b> <scr<script>ipt>x < y  "))
  = JStr (lit "bold ipt>x < y").
Proof. reflexivity. Qed.

(** On a plain object, [validateRequiredFields] reports nothing exactly
    when every required field either holds a truthy value that is not a
    blank string, or is not a property of the object but a name of
    [Object.prototype] (constructor, toString, ...), which the lookup
    finds on the prototype chain. A required field holding 0 or false is
    reported as missing although it is there, a field that is neither
    there nor inherited is reported, and the report keeps the order of
    the required fields. *)
Theorem required_fields_report (data : gmap string jsval)
    (requiredFields : list string) :
  (validateRequiredFields data requiredFields = [] <->
   forall f, f ∈ requiredFields ->
     (exists v, data !! f = Some v /\ js_truthy v = true /\
                forall s, v = JStr s -> trim s <> []) \/
     (data !! f = None /\ f ∈ objectPrototype)) /\
  (forall f, f ∈ requiredFields ->
     data !! f = Some (JNum 0) \/ data !! f = Some (JBool false) \/
     (data !! f = None /\ f ∉ objectPrototype) ->
     f ∈ validateRequiredFields data requiredFields) /\
  validateRequiredFields data requiredFields `sublist_of` requiredFields.
Proof.
  unfold validateRequiredFields. split; [|split].
  - split.
    + intros He f Hf.
      assert (Hb : blankField data f = false).
      { destruct (blankField data f) eqn:Hb; [|done].
        assert (In f (List.filter (blankField data) requiredFields)) as Hin
          by (apply filter_In; split; [by apply list_elem_of_In|done]).
        rewrite He in Hin. done. }
      unfold blankField, member in Hb.
      destruct (data !! f) as [v|].
      * left. apply orb_false_iff in Hb as [H1 H2].
        exists v. split; [done|]. split; [by destruct (js_truthy v)|].
        intros s -> Ht. by rewrite Ht in H2.
      * right. split; [done|]. by case_bool_decide.
    + intros Hall.
      destruct (List.filter (blankField data) requiredFields) as [|f l] eqn:He; [done|].
      assert (In f (List.filter (blankField data) requiredFields)) as Hin
        by (rewrite He; by left).
      apply filter_In in Hin as [Hin Hb].
      unfold blankField, member in Hb.
      destruct (Hall f) as [(v & Hv & Ht & Hs)|[Hv Hp]]; [by apply list_elem_of_In| |].
      * rewrite Hv in Hb. rewrite Ht in Hb.
        simpl in Hb. destruct v; try done.
        specialize (Hs s eq_refl). by destruct (trim s).
      * rewrite Hv in Hb. by rewrite bool_decide_eq_true_2 in Hb.
  - intros f Hf Hv. apply list_elem_of_In, filter_In.
    split; [by apply list_elem_of_In|].
    unfold blankField, member.
    destruct Hv as [-> | [-> | [-> Hp]]]; [done|done|].
    by rewrite bool_decide_eq_false_2.
  - induction requiredFields as [|f l IH]; [done|]. simpl.
    destruct (blankField data f); [by apply sublist_skip|by apply sublist_cons].
Qed.

Lemma required_fields_report_witness :
  validateRequiredFields (<["firstName" := JStr (lit "  ")]>
                          (<["age" := JNum 0]> ∅))
    ["firstName"; "age"; "constructor"; "lastName"]
  = ["firstName"; "age"; "lastName"] /\
  "age" ∈ validateRequiredFields (<["age" := JNum 0]> ∅) ["age"].
Proof.
  split; [reflexivity|].
  apply (proj1 (proj2 (required_fields_report (<["age" := JNum 0]> ∅) ["age"]))).
  - by apply list_elem_of_here.
  - by left.
Defined.

(** ** The verify callback and the stored card *)

Section ClaimProfile.

Variable hmac : jsstring -> jsstring -> jsstring.

(** When the profile of the assertion carries the name-identifier claim,
    the verify callback always fills employeeNumber (with the attribute of
    that name, else with the claim), so the identifier compared with a
    pending card is the employeeNumber and an accepted login stores the
    scanned card as the identity's cardId. *)
Theorem claim_profile_keeps_cardId (w : World) (req : Request) (s : Session)
    (profile : gmap string jsstring) (p : jsstring) :
  session req = Some s ->
  req_user req = Some (userAttributes profile) ->
  truthy (profile !! claim_nameidentifier) = true ->
  pendingCardId s = Some p -> p <> [] ->
  cardMismatch s (userAttributes profile) = false ->
  truthy (employeeNumber (userAttributes profile)) = true /\
  employeeNumber (userAttributes profile) = Some p /\
  u_cardId <$> (session (acsHandler hmac w req).1 ≫= user) = Some (Some p).
Proof.
  intros Hs Hu Hc Hp Hne Hm.
  assert (Ht : truthy (employeeNumber (userAttributes profile)) = true).
  { unfold userAttributes. cbn [employeeNumber]. unfold js_or.
    destruct (truthy (profile !! "employeeNumber")) eqn:He; rewrite ?He; done. }
  assert (He : employeeNumber (userAttributes profile) = Some p).
  { unfold cardMismatch, strict_eq, js_or in Hm. rewrite Ht, Hp in Hm.
    destruct p; [done|]. simpl in Hm.
    by case_bool_decide. }
  split; [exact Ht|]. split; [exact He|].
  apply (acs_cardId_employeeNumber hmac w req s (userAttributes profile) p);
    assumption.
Qed.

End ClaimProfile.

(** A profile that carries only the name-identifier claim. *)
Definition claimProfile : gmap string jsstring :=
  <[claim_nameidentifier := lit "12345"]> ∅.

Lemma claim_profile_keeps_cardId_witness :
  u_cardId <$> (session (acsHandler sampleMac quietWorld
                           (pendingCallback claimProfile)).1 ≫= user)
  = Some (Some (lit "12345")).
Proof.
  apply (claim_profile_keeps_cardId sampleMac quietWorld
           (pendingCallback claimProfile)
           (set_passport (set_pendingCardId emptySession (Some (lit "12345")))
              (Some (userAttributes claimProfile)))
           claimProfile (lit "12345")); try reflexivity.
  discriminate.
Defined.

(** ** The session token and its verification *)

(** The secret the session middleware of server.js verifies with:
    [process.env.SESSION_SECRET || 'your-session-secret-change-in-production']. *)
Definition sessionSecret (e : Env) : jsstring :=
  or_default (SESSION_SECRET e) (lit "your-session-secret-change-in-production").

(** [String.prototype.lastIndexOf] for one character; [None] is -1. *)
Fixpoint lastIndexOf (c : N) (s : jsstring) : option nat :=
  match s with
  | [] => None
  | x :: s' =>
    match lastIndexOf c s' with
    | Some i => Some (S i)
    | None => if x =? c then Some 0%nat else None
    end
  end.

Section TokenVerification.

Variable hmac : jsstring -> jsstring -> jsstring.

(** cookie-signature (library), [unsign(val, secret)]: the value before
    the last '.' ([val.slice(0, -1)] when there is none) is signed again
    and the result compared with [val]; the library compares the two
    strings through digests or in constant time, which is modelled as
    equality. [None] is the result [false]. *)
Definition unsign (val secret : jsstring) : option jsstring :=
  let str :=
    match lastIndexOf 46 val with
    | Some i => take i val
    | None => take (length val - 1) val
    end in
  match sign hmac str (Some secret) with
  | Some mac => if bool_decide (mac = val) then Some str else None
  | None => None
  end.

(** express-session (library), the check of the value of the saml.sid
    cookie, which for a token request is the X-Session-Token header: a
    value that does not start with 's:' is not a signed cookie, and the
    rest is unsigned with the secret of the session middleware. The
    result is the session identifier looked up in the store. *)
Definition verifyAndResolve (e : Env) (raw : jsstring) : option jsstring :=
  if startsWith raw (lit "s:") then unsign (drop 2 raw) (sessionSecret e)
  else None.

Lemma lastIndexOf_absent (c : N) (s : jsstring) :
  c ∉ s -> lastIndexOf c s = None.
Proof.
  induction s as [|x s IH]; [done|]. intros Hn.
  apply not_elem_of_cons in Hn as [Hx Hs]. cbn [lastIndexOf].
  rewrite (IH Hs). destruct (N.eqb_spec x c); [by subst|done].
Qed.

Lemma lastIndexOf_app (c : N) (a b : jsstring) :
  c ∉ b -> lastIndexOf c (a ++ c :: b) = Some (length a).
Proof.
  intros Hn. induction a as [|x a IH].
  - cbn [app lastIndexOf length]. by rewrite (lastIndexOf_absent c b Hn), N.eqb_refl.
  - cbn [app lastIndexOf length]. by rewrite IH.
Qed.

Lemma unsign_sign (val secret : jsstring) :
  46 ∉ hmac secret val ->
  unsign (val ++ lit "." ++ hmac secret val) secret = Some val.
Proof.
  intros Hn. unfold unsign, sign.
  change (lit "." ++ hmac secret val) with (46 :: hmac secret val).
  rewrite (lastIndexOf_app 46 val _ Hn).
  rewrite take_app_length.
  change (lit "." ++ hmac secret val) with (46 :: hmac secret val).
  by rewrite bool_decide_eq_true_2.
Qed.

Lemma unsign_accepts (val secret x : jsstring) :
  unsign val secret = Some x -> val = x ++ lit "." ++ hmac secret x.
Proof.
  unfold unsign, sign. intros H.
  case_bool_decide as Heq; [|done].
  injection H as <-. by rewrite Heq at 1.
Qed.

Lemma startsWith_drop (s p : jsstring) :
  startsWith s p = true -> s = p ++ drop (length p) s.
Proof.
  revert s. induction p as [|c p IH]; intros s H; [done|].
  destruct s as [|d s]; [done|]. cbn [startsWith] in H.
  apply andb_true_iff in H as [Hc Hs]. apply N.eqb_eq in Hc as ->.
  cbn [app length drop]. by rewrite <- (IH s Hs).
Qed.

(** The token [acsHandler] appends is what express-session expects,
    provided both sides use the same secret: with SESSION_SECRET set and
    not empty, and a MAC free of '.', as base64 is, the check of the
    token 's:' + sign(id) returns the id. And the check accepts only
    tokens of that form: 's:', a value, '.', and the MAC of that value
    under the secret of the session middleware. *)
Theorem session_token_round_trip (e : Env) (k sid : jsstring) :
  SESSION_SECRET e = Some k -> k <> [] ->
  46 ∉ hmac k sid ->
  (exists signed,
     sign hmac sid (SESSION_SECRET e) = Some signed /\
     verifyAndResolve e (lit "s:" ++ signed) = Some sid) /\
  (forall raw x,
     verifyAndResolve e raw = Some x ->
     raw = lit "s:" ++ x ++ lit "." ++ hmac k x).
Proof.
  intros Hk Hne Hn.
  assert (Hsec : sessionSecret e = k).
  { unfold sessionSecret. rewrite Hk. by destruct k. }
  split.
  - eexists. split; [by rewrite Hk|].
    unfold verifyAndResolve. rewrite Hsec.
    rewrite (startsWith_app (lit "s:")).
    change (drop 2 (lit "s:" ++ ?x)) with x.
    by apply unsign_sign.
  - intros raw x. unfold verifyAndResolve. rewrite Hsec.
    destruct (startsWith raw (lit "s:")) eqn:Hp; [|done].
    intros Hx. apply unsign_accepts in Hx.
    rewrite (startsWith_drop raw (lit "s:") Hp).
    change (length (lit "s:")) with 2%nat. by rewrite Hx at 1.
Qed.

End TokenVerification.

Lemma session_token_round_trip_witness :
  verifyAndResolve sampleMac (env quietWorld) (lit "s:sid.mac+/") = Some (lit "sid") /\
  verifyAndResolve sampleMac (env quietWorld) (lit "s:sid.mac+.") = None.
Proof.
  split; [|reflexivity].
  destruct (session_token_round_trip sampleMac (env quietWorld) (lit "secret")
              (lit "sid") eq_refl) as [(signed & Hs & Hv) _].
  - discriminate.
  - vm_compute. intros H. repeat (apply elem_of_cons in H as [H|H]; [discriminate H|]).
    by apply elem_of_nil in H.
  - injection Hs as <-. exact Hv.
Defined.
